(** * shouldisellmyhome: the financial calculation of the App component

    The calculator lives in [App]: [calculateFinancials] validates the
    entered [FinancialData] and derives the [CalculationResults];
    [handleAnalyzeClick] stores them in the component state and asks the
    text-generation service for a commentary.

    TypeScript's [number] is an IEEE-754 binary64 value.  The program is
    written once over an interface [Number] of the arithmetic it uses and
    read at two instances:
    - [js_number]: binary64 floats (the kernel's primitive floats), which
      is what the code runs on;
    - [exact]: the rationals, the arithmetic in which the formulas are
      usually read on paper. *)

From Stdlib Require Import Floats ZArith QArith Qround Uint63 Bool String Lia.

Set Implicit Arguments.
Set Warnings "-inexact-float".

(** ** The arithmetic the program uses *)

(** [lit q] is the numeric literal written [q] in the source; [nle] and
    [nlt] are JavaScript's [<=] and [<] (the test [a > b] is [nlt b a]). *)
Class Number (num : Type) : Type := {
  lit : Q -> num;
  nadd : num -> num -> num;
  nsub : num -> num -> num;
  nmul : num -> num -> num;
  ndiv : num -> num -> num;
  nle : num -> num -> bool;
  nlt : num -> num -> bool;
  Math_max : num -> num -> num;
  Math_pow : num -> num -> num
}.

Arguments lit {num _} q%_Q.

Declare Scope num_scope.
Delimit Scope num_scope with num.
Infix "+" := nadd : num_scope.
Infix "-" := nsub : num_scope.
Infix "*" := nmul : num_scope.
Infix "/" := ndiv : num_scope.
Infix "<=?" := nle : num_scope.
Infix "<?" := nlt : num_scope.
Notation "a >? b" := (nlt b a) (at level 70, no associativity) : num_scope.

(** ** types.ts *)

Record NewHomeDetails (num : Type) : Type := {
  estimatedTaxes : num;
  estimatedInsurance : num;
  marketTrends : string
}.

Record FinancialData (num : Type) : Type := {
  currentHomeValue : num;
  currentMortgageBalance : num;
  currentInterestRate : num;
  currentMonthlyPayment : num;
  currentHomeAddress : string;
  newHomePrice : num;
  newInterestRate : num;
  newHomeAddress : string;
  monthlyIncome : num;
  autoDebt : num;
  studentDebt : num;
  creditCardDebt : num;
  otherDebt : num;
  newHomeDetails : option (NewHomeDetails num)
}.

Record CalculationResults (num : Type) : Type := {
  proceedsFromSale : num;
  newLoanAmount : num;
  newMonthlyPayment : num;
  currentDTI : num;
  newDTI : num;
  monthlyPaymentDifference : num
}.

(** ** The state of the App component: one field per [useState] slot. *)

Record AppState (num : Type) : Type := {
  data : FinancialData num;
  results : option (CalculationResults num);
  analysis : string;
  isLoading : bool;
  isValueLoading : bool;
  isHomeDetailsLoading : bool;
  error : string;
  isModalOpen : bool
}.

Section Setters.
Context {num : Type}.

Definition setResults (r : option (CalculationResults num)) (st : AppState num) : AppState num :=
  {| data := st.(data); results := r; analysis := st.(analysis);
     isLoading := st.(isLoading); isValueLoading := st.(isValueLoading);
     isHomeDetailsLoading := st.(isHomeDetailsLoading);
     error := st.(error); isModalOpen := st.(isModalOpen) |}.

Definition setAnalysis (a : string) (st : AppState num) : AppState num :=
  {| data := st.(data); results := st.(results); analysis := a;
     isLoading := st.(isLoading); isValueLoading := st.(isValueLoading);
     isHomeDetailsLoading := st.(isHomeDetailsLoading);
     error := st.(error); isModalOpen := st.(isModalOpen) |}.

Definition setIsLoading (b : bool) (st : AppState num) : AppState num :=
  {| data := st.(data); results := st.(results); analysis := st.(analysis);
     isLoading := b; isValueLoading := st.(isValueLoading);
     isHomeDetailsLoading := st.(isHomeDetailsLoading);
     error := st.(error); isModalOpen := st.(isModalOpen) |}.

Definition setError (e : string) (st : AppState num) : AppState num :=
  {| data := st.(data); results := st.(results); analysis := st.(analysis);
     isLoading := st.(isLoading); isValueLoading := st.(isValueLoading);
     isHomeDetailsLoading := st.(isHomeDetailsLoading);
     error := e; isModalOpen := st.(isModalOpen) |}.
End Setters.

(** ** The local constants of [calculateFinancials]

    Each [const] of the function body, as a function of the [data] it is
    computed from.  They sit in a module of their own because six of them
    share their names with the fields of [CalculationResults]. *)

Module Calc.
Section Locals.
Context {num : Type} {N : Number num}.
Variable d : FinancialData num.
Local Open Scope num_scope.

(* Simplified selling costs (e.g., 6% for commissions, 2% for closing) *)
Definition sellingCosts : num := d.(currentHomeValue) * lit 0.08.

Definition proceedsFromSale : num :=
  d.(currentHomeValue) - d.(currentMortgageBalance) - sellingCosts.

Definition downPayment : num := Math_max (lit 0) proceedsFromSale.

Definition newLoanAmount : num := d.(newHomePrice) - downPayment.

(* Use detailed estimates if available, otherwise the fallback rates. *)
Definition monthlyPropertyTax : num :=
  match d.(newHomeDetails) with
  | Some details => details.(estimatedTaxes) / lit 12
  | None => (d.(newHomePrice) * lit 0.0125) / lit 12
  end.

Definition monthlyInsurance : num :=
  match d.(newHomeDetails) with
  | Some details => details.(estimatedInsurance) / lit 12
  | None => (d.(newHomePrice) * lit 0.005) / lit 12
  end.

Definition monthlyRate : num := d.(newInterestRate) / lit 100 / lit 12.

Definition numberOfPayments : num := lit 30 * lit 12.

Definition principalAndInterest : num :=
  if monthlyRate >? lit 0
  then newLoanAmount
         * (monthlyRate * Math_pow (lit 1 + monthlyRate) numberOfPayments)
         / (Math_pow (lit 1 + monthlyRate) numberOfPayments - lit 1)
  else newLoanAmount / numberOfPayments.

Definition newMonthlyPayment : num :=
  principalAndInterest + monthlyPropertyTax + monthlyInsurance.

Definition totalMonthlyDebt : num :=
  d.(autoDebt) + d.(studentDebt) + d.(creditCardDebt) + d.(otherDebt).

Definition currentTotalMonthlyPayments : num :=
  d.(currentMonthlyPayment) + totalMonthlyDebt.

Definition newTotalMonthlyPayments : num :=
  newMonthlyPayment + totalMonthlyDebt.

Definition currentDTI : num :=
  (currentTotalMonthlyPayments / d.(monthlyIncome)) * lit 100.

Definition newDTI : num :=
  (newTotalMonthlyPayments / d.(monthlyIncome)) * lit 100.

Definition monthlyPaymentDifference : num :=
  newMonthlyPayment - d.(currentMonthlyPayment).
End Locals.
End Calc.

(** ** App.tsx: [calculateFinancials] and [handleAnalyzeClick] *)

Section App.
Context {num : Type} {N : Number num}.
Local Open Scope string_scope.
Local Open Scope num_scope.

(** The reply of the text-generation service (services/geminiService):
    it always resolves to a string, an apology when the request failed. *)
Variable getFinancialAnalysis :
  FinancialData num -> CalculationResults num -> string.

(** The function reads [data], calls [setError] and returns the results
    or [null]; the state is threaded through. *)
Definition calculateFinancials (st : AppState num)
  : option (CalculationResults num) * AppState num :=
  let d := st.(data) in
  let st := setError "" st in
  if d.(currentHomeValue) <=? lit 0 then
    (None, setError "Estimated Home Value must be greater than zero." st)
  else if d.(newHomePrice) <=? lit 0 then
    (None, setError "New Home Purchase Price must be greater than zero." st)
  else if d.(newInterestRate) <=? lit 0 then
    (None, setError "Estimated New Interest Rate must be greater than zero." st)
  else if d.(monthlyIncome) <=? lit 0 then
    (None, setError "Gross Monthly Income must be greater than zero to calculate DTI." st)
  else
    let st :=
      if Calc.proceedsFromSale d <? lit 0
      then setError "Warning: Your estimated selling costs are more than your home equity." st
      else st in
    (Some {| proceedsFromSale := Calc.proceedsFromSale d;
             newLoanAmount := Calc.newLoanAmount d;
             newMonthlyPayment := Calc.newMonthlyPayment d;
             currentDTI := Calc.currentDTI d;
             newDTI := Calc.newDTI d;
             monthlyPaymentDifference := Calc.monthlyPaymentDifference d |},
     st).

Definition handleAnalyzeClick (st : AppState num) : AppState num :=
  let (calculatedResults, st) := calculateFinancials st in
  match calculatedResults with
  | Some r =>
      let st := setResults (Some r) st in
      let st := setIsLoading true st in
      let st := setAnalysis "" st in
      let aiAnalysis := getFinancialAnalysis st.(data) r in
      let st := setAnalysis aiAnalysis st in
      setIsLoading false st
  | None => st
  end.

(** The four guards at the head of [calculateFinancials], as conditions
    on the data. *)
Definition homeValueInvalid (d : FinancialData num) : bool :=
  d.(currentHomeValue) <=? lit 0.
Definition newPriceInvalid (d : FinancialData num) : bool :=
  d.(newHomePrice) <=? lit 0.
Definition rateInvalid (d : FinancialData num) : bool :=
  d.(newInterestRate) <=? lit 0.
Definition incomeInvalid (d : FinancialData num) : bool :=
  d.(monthlyIncome) <=? lit 0.

(** A profile passes validation when none of the four guards fires. *)
Definition passesValidation (d : FinancialData num) : bool :=
  negb (homeValueInvalid d) && negb (newPriceInvalid d)
  && negb (rateInvalid d) && negb (incomeInvalid d).
End App.


(** ** IEEE-754 binary64: the numbers the code runs on *)

Definition float_of_Z (z : Z) : float :=
  match z with
  | Z0 => 0%float
  | Zpos _ => of_uint63 (Uint63.of_Z z)
  | Zneg p => (- of_uint63 (Uint63.of_Z (Zpos p)))%float
  end.

(** A decimal literal denotes the double nearest to it.  Numerator and
    denominator of the literals of this program are small whole numbers,
    which are doubles, and IEEE division rounds their quotient correctly
    ([js_literals] below checks each literal used). *)
Definition float_lit (q : Q) : float :=
  (float_of_Z (Qnum q) / float_of_Z (Zpos (Qden q)))%float.

(** [Math.max] of two arguments (ECMAScript, Math.max: a NaN argument gives
    NaN, and +0 counts as larger than -0). *)
Definition js_max (a b : float) : float :=
  if is_nan a || is_nan b then nan
  else match classify a, classify b with
       | NZero, PZero => b
       | _, _ => if (a <? b)%float then b else a
       end.

(** The numbers of the running program.  ECMAScript leaves the result of
    [Math.pow] implementation-approximated, so the engine's [Math.pow] is
    a parameter of the instance. *)
Definition js_number (pow : float -> float -> float) : Number float :=
  {| lit := float_lit;
     nadd := PrimFloat.add;
     nsub := PrimFloat.sub;
     nmul := PrimFloat.mul;
     ndiv := PrimFloat.div;
     nle := PrimFloat.leb;
     nlt := PrimFloat.ltb;
     Math_max := js_max;
     Math_pow := pow |}.

(** One possible [Math.pow], for evaluating examples: binary powering for
    whole exponents, NaN otherwise.  An engine may differ from it in the
    last bits of a result. *)
Fixpoint pow_pos (x : float) (n : positive) : float :=
  match n with
  | xH => x
  | xO p => let y := pow_pos x p in (y * y)%float
  | xI p => let y := pow_pos x p in (x * (y * y))%float
  end.

Definition whole_of_float (y : float) : option Z :=
  match Prim2SF y with
  | S754_zero _ => Some 0%Z
  | S754_finite s m e =>
      if (0 <=? e)%Z then Some (if s then - (Zpos m * 2 ^ e) else Zpos m * 2 ^ e)%Z
      else if (Zpos m mod 2 ^ (- e) =? 0)%Z
           then Some (if s then - (Zpos m / 2 ^ (- e)) else Zpos m / 2 ^ (- e))%Z
           else None
  | _ => None
  end.

Definition pow_by_squaring (x y : float) : float :=
  match whole_of_float y with
  | Some Z0 => 1%float
  | Some (Zpos n) => pow_pos x n
  | Some (Zneg n) => (1 / pow_pos x n)%float
  | None => nan
  end.

(** ** Exact arithmetic: the rationals *)

(** [Math_pow] is the exact power for whole exponents; the program only
    raises to [numberOfPayments]. *)
Definition exact : Number Q :=
  {| lit := fun q => q;
     nadd := Qplus;
     nsub := Qminus;
     nmul := Qmult;
     ndiv := Qdiv;
     nle := Qle_bool;
     nlt := fun a b => negb (Qle_bool b a);
     Math_max := fun a b => if Qle_bool a b then b else a;
     Math_pow := fun x y => Qpower x (Qfloor y) |}.

(** ** Concrete profiles *)

(** The initial [data] of the component ([useState] in App). *)
Definition initialData : FinancialData float :=
  {| currentHomeValue := 500000%float;
     currentMortgageBalance := 250000%float;
     currentInterestRate := 3.0%float;
     currentMonthlyPayment := 1800%float;
     currentHomeAddress := ""%string;
     newHomePrice := 750000%float;
     newInterestRate := 6.5%float;
     newHomeAddress := ""%string;
     monthlyIncome := 10000%float;
     autoDebt := 500%float;
     studentDebt := 300%float;
     creditCardDebt := 200%float;
     otherDebt := 0%float;
     newHomeDetails := None |}.

Definition initialState : AppState float :=
  {| data := initialData;
     results := None;
     analysis := ""%string;
     isLoading := false;
     isValueLoading := false;
     isHomeDetailsLoading := false;
     error := ""%string;
     isModalOpen := false |}.

(** The state after the user has edited [data] to [d]. *)
Definition withData {num : Type} (d : FinancialData num) (st : AppState num) : AppState num :=
  {| data := d; results := st.(results); analysis := st.(analysis);
     isLoading := st.(isLoading); isValueLoading := st.(isValueLoading);
     isHomeDetailsLoading := st.(isHomeDetailsLoading);
     error := st.(error); isModalOpen := st.(isModalOpen) |}.

(** ** Signs of specification floats *)

(** A float that compares [>= 0]: a zero of either sign, a positive finite
    number or +infinity. *)
Definition sf_nonneg (f : spec_float) : Prop :=
  match f with
  | S754_zero _ => True
  | S754_infinity s | S754_finite s _ _ => s = false
  | S754_nan => False
  end.

(** ** Further concrete profiles *)

(** A profile with the recurring debts of the initial one (500, 300, 200
    and 0) and the given home figures, rate, income and estimates. *)
Definition profile (value balance payment price rate income : float)
    (details : option (NewHomeDetails float)) : FinancialData float :=
  {| currentHomeValue := value;
     currentMortgageBalance := balance;
     currentInterestRate := 3.0%float;
     currentMonthlyPayment := payment;
     currentHomeAddress := ""%string;
     newHomePrice := price;
     newInterestRate := rate;
     newHomeAddress := ""%string;
     monthlyIncome := income;
     autoDebt := 500%float;
     studentDebt := 300%float;
     creditCardDebt := 200%float;
     otherDebt := 0%float;
     newHomeDetails := details |}.

(** A positive rate so small that dividing it by 100 underflows to 0. *)
Definition tinyRateData : FinancialData float :=
  profile 500000 250000 1800 750000 1e-322 10000 None.

(** A rate of 0, which validation would turn away. *)
Definition zeroRateData : FinancialData float :=
  profile 500000 250000 1800 750000 0 10000 None.



(** Negative equity: the mortgage exceeds the value of the home. *)
Definition underwaterData : FinancialData float :=
  profile 100000 200000 1800 750000 6.5 10000 None.

(** No income entered. *)
Definition noIncomeData : FinancialData float :=
  profile 500000 250000 1800 750000 6.5 0 None.

(** The initial figures with estimates fetched for the new address. *)
Definition detailedData : FinancialData float :=
  profile 500000 250000 1800 750000 6.5 10000
    (Some {| estimatedTaxes := 9000%float;
             estimatedInsurance := 2400%float;
             marketTrends := "steady"%string |}).

(** The initial profile and state over the rationals. *)
Definition initialDataQ : FinancialData Q :=
  {| currentHomeValue := 500000%Q;
     currentMortgageBalance := 250000%Q;
     currentInterestRate := 3.0%Q;
     currentMonthlyPayment := 1800%Q;
     currentHomeAddress := ""%string;
     newHomePrice := 750000%Q;
     newInterestRate := 6.5%Q;
     newHomeAddress := ""%string;
     monthlyIncome := 10000%Q;
     autoDebt := 500%Q;
     studentDebt := 300%Q;
     creditCardDebt := 200%Q;
     otherDebt := 0%Q;
     newHomeDetails := None |}.

Definition initialStateQ : AppState Q :=
  {| data := initialDataQ;
     results := None;
     analysis := ""%string;
     isLoading := false;
     isValueLoading := false;
     isHomeDetailsLoading := false;
     error := ""%string;
     isModalOpen := false |}.

(** A state that already shows the results of an earlier analysis. *)
Definition analysedState (d : FinancialData float) : AppState float :=
  {| data := d;
     results :=
       Some {| proceedsFromSale := 210000%float;
               newLoanAmount := 540000%float;
               newMonthlyPayment := 4500%float;
               currentDTI := 28%float;
               newDTI := 55%float;
               monthlyPaymentDifference := 2700%float |};
     analysis := "earlier analysis"%string;
     isLoading := false;
     isValueLoading := false;
     isHomeDetailsLoading := false;
     error := ""%string;
     isModalOpen := false |}.

(** A service that answers every request with the same text. *)
Definition cannedAnalysis (d : FinancialData float) (r : CalculationResults float) : string :=
  "analysis"%string.

(** * The rest of the application *)

From Stdlib Require Import List Ascii NArith Lqa DecimalString.
Import ListNotations.

(** ** JavaScript strings and the built-ins used on them *)

(** A JavaScript string is a sequence of UTF-16 code units.  Texts the
    program only stores, compares with the empty string or shows keep the
    type [string]; texts it takes apart are [ustring]s. *)
Definition ustring : Type := list N.

(** The code units of a literal written in ASCII. *)
Definition units (s : string) : ustring :=
  List.map N_of_ascii (list_ascii_of_string s).

(** [!s] for a string. *)
Definition isEmpty (s : string) : bool :=
  match s with
  | EmptyString => true
  | String _ _ => false
  end.

(** [!x] negated, for a number: 0, -0 and NaN are falsy. *)
Definition truthyNumber (x : float) : bool :=
  negb (is_nan x || (x =? 0)%float).

(** White space and line terminators (ECMAScript, StrWhiteSpaceChar): what
    [trim] strips and the class [\s] of regular expressions. *)
Definition isWhiteSpace (c : N) : bool :=
  ((c =? 9) || (c =? 10) || (c =? 11) || (c =? 12) || (c =? 13)
   || (c =? 32) || (c =? 160) || (c =? 5760)
   || ((8192 <=? c) && (c <=? 8202))
   || (c =? 8232) || (c =? 8233) || (c =? 8239) || (c =? 8287)
   || (c =? 12288) || (c =? 65279))%N.

(** The class [\d], also [0-9]. *)
Definition isDigit (c : N) : bool := ((48 <=? c) && (c <=? 57))%N.

Fixpoint trimStart (s : ustring) : ustring :=
  match s with
  | c :: rest => if isWhiteSpace c then trimStart rest else s
  | [] => []
  end.

Definition trimEnd (s : ustring) : ustring := rev (trimStart (rev s)).

Definition trim (s : ustring) : ustring := trimEnd (trimStart s).

(** The Number value of a whole number: the nearest double, ties to even,
    infinity on overflow; [negativeZero] is the sign given to 0. *)
Definition numberOfZ (z : Z) (negativeZero : bool) : float :=
  SF2Prim (binary_normalize prec emax z 0 negativeZero).

Fixpoint leadingDigits (s : ustring) : ustring :=
  match s with
  | c :: rest => if isDigit c then c :: leadingDigits rest else []
  | [] => []
  end.

Definition decimalValue (digits : ustring) : Z :=
  fold_left (fun acc c => 10 * acc + (Z.of_N c - 48))%Z digits 0%Z.

(** [parseInt(s, 10)] (ECMAScript, parseInt): leading white space and one
    sign are skipped, the longest run of digits is read, and no digit gives
    NaN.  Past 20 significant digits an engine may replace further digits
    by 0 before rounding; here the value is always rounded as it stands. *)
Definition parseInt10 (s : ustring) : float :=
  let s := trimStart s in
  let negative :=
    match s with
    | c :: _ => (c =? 45)%N
    | [] => false
    end in
  let s :=
    match s with
    | c :: rest => if ((c =? 45) || (c =? 43))%N then rest else s
    | [] => s
    end in
  match leadingDigits s with
  | [] => nan
  | digits =>
      numberOfZ (if negative then - decimalValue digits else decimalValue digits)
                negative
  end.

(** ** services/geminiService *)

(** What a [throw] carries: an [Error] with its message, or another value. *)
Inductive Thrown : Type :=
| ErrorObject (message : string)
| OtherValue.

(** A settled promise. *)
Inductive Settled (A : Type) : Type :=
| Fulfilled (value : A)
| Rejected (reason : Thrown).

Arguments Fulfilled {A} value.
Arguments Rejected {A} reason.

(** How [ai.models.generateContent] ends: with a response and its text,
    or by throwing (a failed request, or a response without text, on which
    [trim] throws). *)
Inductive GenerateContent : Type :=
| ResponseText (text : ustring)
| RequestFailed.

(** The object [JSON.parse] yields, as far as [NewHomeDetails] declares
    it: each field may be missing. *)
Record ParsedDetails : Type := {
  parsedTaxes : option float;
  parsedInsurance : option float;
  parsedTrends : option string
}.

Section GeminiService.
Local Open Scope string_scope.

(** [JSON.parse]: [None] when it throws. *)
Variable JSON_parse : ustring -> option ParsedDetails.

Definition getEstimatedHomeValue (address : string) (response : GenerateContent)
  : Settled float :=
  if isEmpty address then
    Rejected (ErrorObject "Address is required to estimate home value.")
  else
    (* every throw inside the try block is replaced by the catch block's *)
    match response with
    | ResponseText raw =>
        let text := trim raw in
        let value := parseInt10 (filter isDigit text) in
        if is_nan value || (value =? 0)%float then
          Rejected (ErrorObject
            "Could not estimate a value for this address. Please enter a value manually.")
        else Fulfilled value
    | RequestFailed =>
        Rejected (ErrorObject
          "Could not estimate a value for this address. Please enter a value manually.")
    end.

Definition getNewHomeDetails (address : string) (price : float)
    (response : GenerateContent) : Settled (NewHomeDetails float) :=
  if isEmpty address then
    Rejected (ErrorObject "Address is required to get home details.")
  else
    match response with
    | ResponseText raw =>
        let jsonStr := trim raw in
        match JSON_parse jsonStr with
        | Some details =>
            match details.(parsedTaxes), details.(parsedInsurance),
                  details.(parsedTrends) with
            | Some taxes, Some insurance, Some trends =>
                if negb (truthyNumber taxes) || negb (truthyNumber insurance)
                   || isEmpty trends
                then
                  Rejected (ErrorObject
                    "Could not retrieve details for the new address. Please check the address and try again.")
                else
                  Fulfilled {| estimatedTaxes := taxes;
                               estimatedInsurance := insurance;
                               marketTrends := trends |}
            | _, _, _ =>
                Rejected (ErrorObject
                  "Could not retrieve details for the new address. Please check the address and try again.")
            end
        | None =>
            Rejected (ErrorObject
              "Could not retrieve details for the new address. Please check the address and try again.")
        end
    | RequestFailed =>
        Rejected (ErrorObject
          "Could not retrieve details for the new address. Please check the address and try again.")
    end.

End GeminiService.

(** ** App.tsx: the other handlers *)

Section MoreSetters.
Context {num : Type}.

Definition setData (update : FinancialData num -> FinancialData num)
    (st : AppState num) : AppState num :=
  {| data := update st.(data); results := st.(results); analysis := st.(analysis);
     isLoading := st.(isLoading); isValueLoading := st.(isValueLoading);
     isHomeDetailsLoading := st.(isHomeDetailsLoading);
     error := st.(error); isModalOpen := st.(isModalOpen) |}.

Definition setIsValueLoading (b : bool) (st : AppState num) : AppState num :=
  {| data := st.(data); results := st.(results); analysis := st.(analysis);
     isLoading := st.(isLoading); isValueLoading := b;
     isHomeDetailsLoading := st.(isHomeDetailsLoading);
     error := st.(error); isModalOpen := st.(isModalOpen) |}.

Definition setIsHomeDetailsLoading (b : bool) (st : AppState num) : AppState num :=
  {| data := st.(data); results := st.(results); analysis := st.(analysis);
     isLoading := st.(isLoading); isValueLoading := st.(isValueLoading);
     isHomeDetailsLoading := b;
     error := st.(error); isModalOpen := st.(isModalOpen) |}.

Definition setIsModalOpen (b : bool) (st : AppState num) : AppState num :=
  {| data := st.(data); results := st.(results); analysis := st.(analysis);
     isLoading := st.(isLoading); isValueLoading := st.(isValueLoading);
     isHomeDetailsLoading := st.(isHomeDetailsLoading);
     error := st.(error); isModalOpen := b |}.
End MoreSetters.

(** The names of the inputs whose value is read as a number. *)
Definition numericFields : list string :=
  [ "currentHomeValue"; "currentMortgageBalance"; "currentInterestRate";
    "currentMonthlyPayment"; "newHomePrice"; "newInterestRate";
    "monthlyIncome"; "autoDebt"; "studentDebt"; "creditCardDebt";
    "otherDebt" ]%string.

(** [data[name]] for a numeric field. *)
Definition numericField (name : string) (d : FinancialData float) : option float :=
  if (name =? "currentHomeValue")%string then Some d.(currentHomeValue)
  else if (name =? "currentMortgageBalance")%string then Some d.(currentMortgageBalance)
  else if (name =? "currentInterestRate")%string then Some d.(currentInterestRate)
  else if (name =? "currentMonthlyPayment")%string then Some d.(currentMonthlyPayment)
  else if (name =? "newHomePrice")%string then Some d.(newHomePrice)
  else if (name =? "newInterestRate")%string then Some d.(newInterestRate)
  else if (name =? "monthlyIncome")%string then Some d.(monthlyIncome)
  else if (name =? "autoDebt")%string then Some d.(autoDebt)
  else if (name =? "studentDebt")%string then Some d.(studentDebt)
  else if (name =? "creditCardDebt")%string then Some d.(creditCardDebt)
  else if (name =? "otherDebt")%string then Some d.(otherDebt)
  else None.

(** The object spread with a computed key, for a number.  The inputs of
    the form carry the names of the fields; any other name would add a
    property the type does not declare and nothing reads. *)
Definition assignNumber (name : string) (v : float) (prev : FinancialData float)
  : FinancialData float :=
  let pick (field : string) (old : float) :=
    if (name =? field)%string then v else old in
  {| currentHomeValue := pick "currentHomeValue"%string prev.(currentHomeValue);
     currentMortgageBalance :=
       pick "currentMortgageBalance"%string prev.(currentMortgageBalance);
     currentInterestRate := pick "currentInterestRate"%string prev.(currentInterestRate);
     currentMonthlyPayment :=
       pick "currentMonthlyPayment"%string prev.(currentMonthlyPayment);
     currentHomeAddress := prev.(currentHomeAddress);
     newHomePrice := pick "newHomePrice"%string prev.(newHomePrice);
     newInterestRate := pick "newInterestRate"%string prev.(newInterestRate);
     newHomeAddress := prev.(newHomeAddress);
     monthlyIncome := pick "monthlyIncome"%string prev.(monthlyIncome);
     autoDebt := pick "autoDebt"%string prev.(autoDebt);
     studentDebt := pick "studentDebt"%string prev.(studentDebt);
     creditCardDebt := pick "creditCardDebt"%string prev.(creditCardDebt);
     otherDebt := pick "otherDebt"%string prev.(otherDebt);
     newHomeDetails := prev.(newHomeDetails) |}.

(** The same for the two address fields. *)
Definition assignText (name : string) (v : string) (prev : FinancialData float)
  : FinancialData float :=
  {| currentHomeValue := prev.(currentHomeValue);
     currentMortgageBalance := prev.(currentMortgageBalance);
     currentInterestRate := prev.(currentInterestRate);
     currentMonthlyPayment := prev.(currentMonthlyPayment);
     currentHomeAddress :=
       if (name =? "currentHomeAddress")%string then v else prev.(currentHomeAddress);
     newHomePrice := prev.(newHomePrice);
     newInterestRate := prev.(newInterestRate);
     newHomeAddress :=
       if (name =? "newHomeAddress")%string then v else prev.(newHomeAddress);
     monthlyIncome := prev.(monthlyIncome);
     autoDebt := prev.(autoDebt);
     studentDebt := prev.(studentDebt);
     creditCardDebt := prev.(creditCardDebt);
     otherDebt := prev.(otherDebt);
     newHomeDetails := prev.(newHomeDetails) |}.

Definition withCurrentHomeValue (v : float) (prev : FinancialData float)
  : FinancialData float :=
  assignNumber "currentHomeValue" v prev.

Definition withNewHomeDetails (details : NewHomeDetails float)
    (prev : FinancialData float) : FinancialData float :=
  {| currentHomeValue := prev.(currentHomeValue);
     currentMortgageBalance := prev.(currentMortgageBalance);
     currentInterestRate := prev.(currentInterestRate);
     currentMonthlyPayment := prev.(currentMonthlyPayment);
     currentHomeAddress := prev.(currentHomeAddress);
     newHomePrice := prev.(newHomePrice);
     newInterestRate := prev.(newInterestRate);
     newHomeAddress := prev.(newHomeAddress);
     monthlyIncome := prev.(monthlyIncome);
     autoDebt := prev.(autoDebt);
     studentDebt := prev.(studentDebt);
     creditCardDebt := prev.(creditCardDebt);
     otherDebt := prev.(otherDebt);
     newHomeDetails := Some details |}.

Section Handlers.
Local Open Scope string_scope.

(** The built-ins [parseFloat] and [JSON.parse], the engine's [Math.pow]
    and the reply of the analysis service. *)
Variable parseFloat : string -> float.
Variable JSON_parse : ustring -> option ParsedDetails.
Variable pow : float -> float -> float.
Variable getFinancialAnalysis :
  FinancialData float -> CalculationResults float -> string.

(** [name] and [value] are those of the event's target. *)
Definition handleInputChange (name value : string) (st : AppState float)
  : AppState float :=
  if (name =? "newHomeAddress") || (name =? "currentHomeAddress") then
    setData (assignText name value) st
  else
    setData (assignNumber name
               (if truthyNumber (parseFloat value) then parseFloat value
                else 0%float)) st.

(** [response] is how the request made by [getEstimatedHomeValue] ends. *)
Definition handleGetValue (response : GenerateContent) (st : AppState float)
  : AppState float :=
  if isEmpty st.(data).(currentHomeAddress) then st
  else
    let address := st.(data).(currentHomeAddress) in
    let st := setIsValueLoading true st in
    let st := setError "" st in
    let st :=
      match getEstimatedHomeValue address response with
      | Fulfilled estimatedValue => setData (withCurrentHomeValue estimatedValue) st
      | Rejected (ErrorObject message) => setError message st
      | Rejected OtherValue =>
          setError "An unknown error occurred while estimating home value." st
      end in
    setIsValueLoading false st.

Definition handleGetNewHomeDetails (response : GenerateContent)
    (st : AppState float) : AppState float :=
  if isEmpty st.(data).(newHomeAddress) then st
  else
    let address := st.(data).(newHomeAddress) in
    let price := st.(data).(newHomePrice) in
    let st := setIsHomeDetailsLoading true st in
    let st := setError "" st in
    let st :=
      match getNewHomeDetails JSON_parse address price response with
      | Fulfilled details => setData (withNewHomeDetails details) st
      | Rejected (ErrorObject message) => setError message st
      | Rejected OtherValue =>
          setError "An unknown error occurred while fetching new home details." st
      end in
    setIsHomeDetailsLoading false st.

(** The states the component can get into: it starts in [initialState],
    and every event runs one of its handlers. *)
Inductive reachable : AppState float -> Prop :=
| reach_initial : reachable initialState
| reach_input (name value : string) (st : AppState float) :
    reachable st -> reachable (handleInputChange name value st)
| reach_value (response : GenerateContent) (st : AppState float) :
    reachable st -> reachable (handleGetValue response st)
| reach_details (response : GenerateContent) (st : AppState float) :
    reachable st -> reachable (handleGetNewHomeDetails response st)
| reach_analyze (st : AppState float) :
    reachable st ->
    reachable (handleAnalyzeClick (N := js_number pow) getFinancialAnalysis st)
| reach_modal (open : bool) (st : AppState float) :
    reachable st -> reachable (setIsModalOpen open st).

End Handlers.

Definition cleanData (d : FinancialData float) : Prop :=
  (forall name x, numericField name d = Some x -> is_nan x = false)
  /\ (forall details, d.(newHomeDetails) = Some details ->
        truthyNumber details.(estimatedTaxes) = true
        /\ truthyNumber details.(estimatedInsurance) = true
        /\ isEmpty details.(marketTrends) = false).

Section ResultsDisplay.
Context {num : Type} {N : Number num}.
Local Open Scope string_scope.
Local Open Scope num_scope.


End ResultsDisplay.

(** ** More string built-ins *)

(** Line terminators: what [.] in a regular expression does not match. *)
Definition isLineTerminator (c : N) : bool :=
  ((c =? 10) || (c =? 13) || (c =? 8232) || (c =? 8233))%N.

Fixpoint startsWith (s prefix : ustring) {struct prefix} : bool :=
  match prefix, s with
  | [], _ => true
  | p :: prefix', c :: s' => (c =? p)%N && startsWith s' prefix'
  | _ :: _, [] => false
  end.

Fixpoint includes (s needle : ustring) : bool :=
  startsWith s needle
  || match s with
     | [] => false
     | _ :: rest => includes rest needle
     end.

(** [s.substring(n)] *)
Definition substring (n : nat) (s : ustring) : ustring := skipn n s.

(** [s.split(sep)] for a separator of one code unit: the pieces between
    the separators, one piece for a string without any. *)
Fixpoint split (sep : N) (s : ustring) : list ustring :=
  match s with
  | [] => [[]]
  | c :: rest =>
      if (c =? sep)%N then [] :: split sep rest
      else match split sep rest with
           | piece :: pieces => (c :: piece) :: pieces
           | [] => [[c]]
           end
  end.

(** [parts.join(sep)] *)
Fixpoint join (sep : ustring) (parts : list ustring) : ustring :=
  match parts with
  | [] => []
  | [part] => part
  | part :: rest => part ++ sep ++ join sep rest
  end.

(** ** components/ResultsDisplay: [simpleMarkdownToHtml] *)

(** The rest of a match of [\*\*(.*?)\*\*] once the opening stars are
    read: the shortest run of characters other than line terminators that
    is followed by two stars, and what follows those. *)
Fixpoint closeBold (s : ustring) : option (ustring * ustring) :=
  match s with
  | [] => None
  | c :: rest =>
      if startsWith s [42; 42]%N then Some ([], skipn 2 s)
      else if isLineTerminator c then None
      else match closeBold rest with
           | Some (captured, after) => Some (c :: captured, after)
           | None => None
           end
  end.

(** [markdown.replace(/\*\*(.*?)\*\*/g, '<strong>$1</strong>')]: matches
    are looked for from left to right, each search starting where the last
    match ended.  Every step consumes a code unit, so the length of the
    string is fuel enough. *)
Fixpoint replaceBoldFrom (fuel : nat) (s : ustring) : ustring :=
  match fuel, s with
  | _, [] => []
  | O, _ => s
  | S fuel', c :: rest =>
      match (if startsWith s [42; 42]%N then closeBold (skipn 2 s) else None) with
      | Some (captured, after) =>
          units "<strong>" ++ captured ++ units "</strong>"
          ++ replaceBoldFrom fuel' after
      | None => c :: replaceBoldFrom fuel' rest
      end
  end.

Definition replaceBold (s : ustring) : ustring := replaceBoldFrom (length s) s.

(** The five headings the analysis is asked to use start with one of
    these emoji. *)
Definition sectionMarkers : list ustring :=
  [ [55357; 56496]; [55357; 56522]; [10024]; [9888; 65039]; [55358; 56596] ]%N.

(** [line.match(/^(...)/)] *)
Definition startsWithMarker (line : ustring) : bool :=
  existsb (startsWith line) sectionMarkers.

Definition quoted (s : string) : ustring := [34%N] ++ units s ++ [34%N].

Definition sectionHeading (content : ustring) : ustring :=
  units "<h3 class="
  ++ quoted "text-lg font-semibold text-slate-800 mt-6 pt-4 border-t border-slate-200"
  ++ units ">" ++ content ++ units "</h3>".

(** What the loop pushes for a line that is not a list item and not
    blank. *)
Definition block (line trimmedLine : ustring) : ustring :=
  if includes line (units "<strong>TL;DR: The Bottom Line</strong>") then
    units "<h2 class=" ++ quoted "text-xl font-bold text-slate-900 mb-2"
    ++ units ">" ++ line ++ units "</h2>"
  else if startsWithMarker line then sectionHeading line
  else if startsWith trimmedLine (units "### ") then
    sectionHeading (substring 4 trimmedLine)
  else if includes line (units "This is an AI-generated analysis") then
    units "<p class="
    ++ quoted "text-sm text-slate-500 italic mt-6 pt-4 border-t border-slate-200"
    ++ units ">" ++ line ++ units "</p>"
  else units "<p>" ++ line ++ units "</p>".

(** The loop over the lines: what it pushes onto [htmlParts] from a given
    value of [inList] on, with the closing tag pushed after the loop. *)
Fixpoint renderLines (inList : bool) (lines : list ustring) : list ustring :=
  match lines with
  | [] => if inList then [units "</ul>"] else []
  | line :: rest =>
      let trimmedLine := trim line in
      if startsWith trimmedLine (units "- ") then
        (if inList then [] else [units "<ul>"])
        ++ [units "<li>" ++ substring 2 trimmedLine ++ units "</li>"]
        ++ renderLines true rest
      else
        (if inList then [units "</ul>"] else [])
        ++ match trimmedLine with
           | [] => renderLines false rest
           | _ :: _ => block line trimmedLine :: renderLines false rest
           end
  end.

(** The array [htmlParts] at the end of the function. *)
Definition htmlParts (markdown : ustring) : list ustring :=
  let boldedMarkdown := replaceBold markdown in
  let lines := split 10 (trim boldedMarkdown) in
  renderLines false lines.

Definition simpleMarkdownToHtml (markdown : ustring) : ustring :=
  match markdown with
  | [] => []
  | _ :: _ => join [10%N] (htmlParts markdown)
  end.


(** A part that is a block of its own: a heading or a paragraph. *)
Definition isBlockPart (part : ustring) : bool :=
  startsWith part (units "<h2 ") || startsWith part (units "<h3 ")
  || startsWith part (units "<p").

(** A part that is a list item. *)
Definition isItemPart (part : ustring) : bool := startsWith part (units "<li>").

(** A sequence of blocks and lists, each list opened, filled with at
    least one item and closed. *)
Inductive blocksAndLists : list ustring -> Prop :=
| bl_end : blocksAndLists []
| bl_block (part : ustring) (rest : list ustring) :
    isBlockPart part = true -> blocksAndLists rest ->
    blocksAndLists (part :: rest)
| bl_list (item : ustring) (items rest : list ustring) :
    Forall (fun p => isItemPart p = true) (item :: items) ->
    blocksAndLists rest ->
    blocksAndLists (units "<ul>" :: (item :: items) ++ units "</ul>" :: rest).

(** ** Regular expressions *)

(** The fragment the program uses: classes of code units, sequence,
    alternative and repetition. *)
Inductive regex : Type :=
| Never
| Empty
| Class (p : N -> bool)
| Seq (r1 r2 : regex)
| Alt (r1 r2 : regex)
| Star (r : regex).

Fixpoint nullable (r : regex) : bool :=
  match r with
  | Never => false
  | Empty => true
  | Class _ => false
  | Seq r1 r2 => nullable r1 && nullable r2
  | Alt r1 r2 => nullable r1 || nullable r2
  | Star _ => true
  end.

(** The derivative: what is left to match after reading [c]. *)
Fixpoint derivative (c : N) (r : regex) : regex :=
  match r with
  | Never => Never
  | Empty => Never
  | Class p => if p c then Empty else Never
  | Seq r1 r2 =>
      if nullable r1
      then Alt (Seq (derivative c r1) r2) (derivative c r2)
      else Seq (derivative c r1) r2
  | Alt r1 r2 => Alt (derivative c r1) (derivative c r2)
  | Star r1 => Seq (derivative c r1) (Star r1)
  end.

(** The whole of [s] matches [r]. *)
Fixpoint matches (r : regex) (s : ustring) : bool :=
  match s with
  | [] => nullable r
  | c :: rest => matches (derivative c r) rest
  end.

Definition Plus (r : regex) : regex := Seq r (Star r).

(** [r{n,}] *)
Fixpoint AtLeast (n : nat) (r : regex) : regex :=
  match n with
  | O => Star r
  | S n' => Seq r (AtLeast n' r)
  end.

Definition Char (c : N) : regex := Class (N.eqb c).

(** [/r/.test(s)] for a pattern without anchors: some substring matches. *)
Definition testAnywhere (r : regex) (s : ustring) : bool :=
  matches (Seq (Star (Class (fun _ => true))) (Seq r (Star (Class (fun _ => true))))) s.

(** [/^r$/.test(s)] *)
Definition testWhole (r : regex) (s : ustring) : bool := matches r s.

(** The language of a regular expression. *)
Inductive language : regex -> ustring -> Prop :=
| lang_empty : language Empty []
| lang_class (p : N -> bool) (c : N) : p c = true -> language (Class p) [c]
| lang_seq (r1 r2 : regex) (s1 s2 : ustring) :
    language r1 s1 -> language r2 s2 -> language (Seq r1 r2) (s1 ++ s2)
| lang_alt_l (r1 r2 : regex) (s : ustring) : language r1 s -> language (Alt r1 r2) s
| lang_alt_r (r1 r2 : regex) (s : ustring) : language r2 s -> language (Alt r1 r2) s
| lang_star_nil (r : regex) : language (Star r) []
| lang_star_cons (r : regex) (s1 s2 : ustring) :
    language r s1 -> language (Star r) s2 -> language (Star r) (s1 ++ s2).

(** ** components/ConsultantForm *)

Module ConsultantForm.

Record FormData : Type := {
  name : ustring;
  email : ustring;
  phone : ustring
}.

(** The object held in [errors]; it has the keys of [formData]. *)
Module Errors.
Record t : Type := {
  name : string;
  email : string;
  phone : string
}.
End Errors.

(** One field per [useState] slot of the component. *)
Record State : Type := {
  formData : FormData;
  errors : Errors.t;
  isSubmitted : bool;
  isSubmitting : bool;
  isDownloading : bool;
  submitError : string
}.

Definition setErrors (e : Errors.t) (st : State) : State :=
  {| formData := st.(formData); errors := e; isSubmitted := st.(isSubmitted);
     isSubmitting := st.(isSubmitting); isDownloading := st.(isDownloading);
     submitError := st.(submitError) |}.

Definition setIsSubmitted (b : bool) (st : State) : State :=
  {| formData := st.(formData); errors := st.(errors); isSubmitted := b;
     isSubmitting := st.(isSubmitting); isDownloading := st.(isDownloading);
     submitError := st.(submitError) |}.

Definition setIsSubmitting (b : bool) (st : State) : State :=
  {| formData := st.(formData); errors := st.(errors);
     isSubmitted := st.(isSubmitted); isSubmitting := b;
     isDownloading := st.(isDownloading); submitError := st.(submitError) |}.

Definition setSubmitError (e : string) (st : State) : State :=
  {| formData := st.(formData); errors := st.(errors);
     isSubmitted := st.(isSubmitted); isSubmitting := st.(isSubmitting);
     isDownloading := st.(isDownloading); submitError := e |}.

(** [\S] *)
Definition NonSpace : regex := Class (fun c => negb (isWhiteSpace c)).

(** [/\S+@\S+\.\S+/] *)
Definition emailPattern : regex :=
  Seq (Plus NonSpace) (Seq (Char 64) (Seq (Plus NonSpace) (Seq (Char 46) (Plus NonSpace)))).

(** [/^\d{10,}$/] *)
Definition phonePattern : regex := AtLeast 10 (Class isDigit).

(** [!s.trim()] *)
Definition isBlank (s : ustring) : bool :=
  match trim s with
  | [] => true
  | _ :: _ => false
  end.

Definition validateForm (st : State) : bool * State :=
  let newErrors := {| Errors.name := ""; Errors.email := ""; Errors.phone := "" |} in
  let isValid := true in
  let '(newErrors, isValid) :=
    if isBlank st.(formData).(name) then
      ({| Errors.name := "Name is required.";
          Errors.email := newErrors.(Errors.email);
          Errors.phone := newErrors.(Errors.phone) |}, false)
    else (newErrors, isValid) in
  let '(newErrors, isValid) :=
    if isBlank st.(formData).(email) then
      ({| Errors.name := newErrors.(Errors.name);
          Errors.email := "Email is required.";
          Errors.phone := newErrors.(Errors.phone) |}, false)
    else if negb (testAnywhere emailPattern st.(formData).(email)) then
      ({| Errors.name := newErrors.(Errors.name);
          Errors.email := "Email is invalid.";
          Errors.phone := newErrors.(Errors.phone) |}, false)
    else (newErrors, isValid) in
  let '(newErrors, isValid) :=
    if isBlank st.(formData).(phone) then
      ({| Errors.name := newErrors.(Errors.name);
          Errors.email := newErrors.(Errors.email);
          Errors.phone := "Phone number is required." |}, false)
    else if negb (testWhole phonePattern
                    (filter isDigit st.(formData).(phone))) then
      ({| Errors.name := newErrors.(Errors.name);
          Errors.email := newErrors.(Errors.email);
          Errors.phone := "Phone number must be at least 10 digits." |}, false)
    else (newErrors, isValid) in
  (isValid, setErrors newErrors st).

(** How the request made by [fetch] ends: with a response, or with
    something thrown. *)
Inductive FetchOutcome : Type :=
| Responded (ok : bool) (status : N)
| FetchThrew (message : option ustring).

(** The status in a template literal: its decimal digits. *)
Definition statusText (status : N) : ustring :=
  units (NilZero.string_of_uint (N.to_uint status)).

(** The catch block of [handleSubmit]; [message] is that of the [Error]
    caught, [None] for another value. *)
Definition submitFailed (message : option ustring) (st : State) : State :=
  match message with
  | Some text =>
      if includes text (units "Failed to fetch") then
        setSubmitError
          "A network error occurred. Please check your connection and try again." st
      else setSubmitError "Failed to submit your request. Please try again later." st
  | None => setSubmitError "Failed to submit your request. Please try again later." st
  end.

Definition handleSubmit (outcome : FetchOutcome) (st : State) : State :=
  let st := setSubmitError "" st in
  let (valid, st) := validateForm st in
  if negb valid then st
  else
    let st := setIsSubmitting true st in
    let st :=
      match outcome with
      | Responded ok status =>
          if negb ok then
            submitFailed
              (Some (units "Submission failed. Server responded with status: "
                     ++ statusText status)) st
          else setIsSubmitted true st
      | FetchThrew message => submitFailed message st
      end in
    setIsSubmitting false st.

End ConsultantForm.

Definition emailShape (s : ustring) : Prop :=
  exists before local domain tld after,
    s = before ++ local ++ [64%N] ++ domain ++ [46%N] ++ tld ++ after
    /\ local <> [] /\ domain <> [] /\ tld <> []
    /\ Forall (fun c => isWhiteSpace c = false) (local ++ domain ++ tld).

(** ** Stand-ins and concrete states for the handlers *)

(** A [parseFloat] that finds no number in any text. *)
Definition parsesNothing (text : string) : float := nan.

(** A [JSON.parse] that yields the same object for every text. *)
Definition parsesTo (details : ParsedDetails) (text : ustring)
  : option ParsedDetails := Some details.

Definition steadyDetails : ParsedDetails :=
  {| parsedTaxes := Some 9000%float;
     parsedInsurance := Some 2400%float;
     parsedTrends := Some "steady"%string |}.

(** The initial state once an address is typed into both address fields. *)
Definition addressedState : AppState float :=
  withData
    (assignText "newHomeAddress" "1 Main St"
       (assignText "currentHomeAddress" "1 Main St" initialData))
    initialState.

(** The form as it opens, and filled in. *)
Definition emptyForm : ConsultantForm.State :=
  {| ConsultantForm.formData :=
       {| ConsultantForm.name := []; ConsultantForm.email := [];
          ConsultantForm.phone := [] |};
     ConsultantForm.errors :=
       {| ConsultantForm.Errors.name := ""; ConsultantForm.Errors.email := "";
          ConsultantForm.Errors.phone := "" |};
     ConsultantForm.isSubmitted := false;
     ConsultantForm.isSubmitting := false;
     ConsultantForm.isDownloading := false;
     ConsultantForm.submitError := "" |}.

Definition filledForm : ConsultantForm.State :=
  {| ConsultantForm.formData :=
       {| ConsultantForm.name := units "Ada Byron";
          ConsultantForm.email := units "ada@example.org";
          ConsultantForm.phone := units "(555) 123-4567" |};
     ConsultantForm.errors :=
       {| ConsultantForm.Errors.name := ""; ConsultantForm.Errors.email := "";
          ConsultantForm.Errors.phone := "" |};
     ConsultantForm.isSubmitted := false;
     ConsultantForm.isSubmitting := false;
     ConsultantForm.isDownloading := false;
     ConsultantForm.submitError := "" |}.

(** * Properties *)

Unset Implicit Arguments.

(** ** Validation and the shape of the result, for any arithmetic *)

Section Structure.
Context {num : Type} {N : Number num}.
Local Open Scope string_scope.
Local Open Scope num_scope.

Lemma passesValidation_true (d : FinancialData num) :
  passesValidation d = true <->
  homeValueInvalid d = false /\ newPriceInvalid d = false
  /\ rateInvalid d = false /\ incomeInvalid d = false.
Proof.
  unfold passesValidation.
  rewrite !andb_true_iff, !negb_true_iff. tauto.
Qed.

Lemma passesValidation_false (d : FinancialData num) :
  passesValidation d = false <->
  homeValueInvalid d = true \/ newPriceInvalid d = true
  \/ rateInvalid d = true \/ incomeInvalid d = true.
Proof.
  unfold passesValidation.
  rewrite !andb_false_iff, !negb_false_iff. tauto.
Qed.

(** On a profile that passes validation the function returns the record
    of its local constants, and the only state it touches is [error]. *)
Lemma calculateFinancials_valid (st : AppState num) :
  passesValidation st.(data) = true ->
  calculateFinancials st =
    (Some {| proceedsFromSale := Calc.proceedsFromSale st.(data);
             newLoanAmount := Calc.newLoanAmount st.(data);
             newMonthlyPayment := Calc.newMonthlyPayment st.(data);
             currentDTI := Calc.currentDTI st.(data);
             newDTI := Calc.newDTI st.(data);
             monthlyPaymentDifference := Calc.monthlyPaymentDifference st.(data) |},
     if Calc.proceedsFromSale st.(data) <? lit 0
     then setError "Warning: Your estimated selling costs are more than your home equity."
            (setError "" st)
     else setError "" st).
Proof.
  intros Hv. apply passesValidation_true in Hv.
  destruct Hv as (H1 & H2 & H3 & H4).
  unfold homeValueInvalid, newPriceInvalid, rateInvalid, incomeInvalid in *.
  unfold calculateFinancials. rewrite H1, H2, H3, H4. reflexivity.
Qed.

Lemma calculateFinancials_invalid (st : AppState num) :
  passesValidation st.(data) = false ->
  fst (calculateFinancials st) = None
  /\ results (snd (calculateFinancials st)) = st.(results)
  /\ analysis (snd (calculateFinancials st)) = st.(analysis)
  /\ isLoading (snd (calculateFinancials st)) = st.(isLoading)
  /\ data (snd (calculateFinancials st)) = st.(data).
Proof.
  intros Hv. unfold passesValidation, homeValueInvalid, newPriceInvalid,
    rateInvalid, incomeInvalid in Hv.
  unfold calculateFinancials.
  destruct (currentHomeValue (data st) <=? lit 0); [repeat split|].
  destruct (newHomePrice (data st) <=? lit 0); [repeat split|].
  destruct (newInterestRate (data st) <=? lit 0); [repeat split|].
  destruct (monthlyIncome (data st) <=? lit 0); [repeat split|].
  discriminate Hv.
Qed.

(** C1. For every profile that passes validation the computation takes
    the sum of the four recurring debts as totalMonthlyDebt, and returns
    currentDTI = (currentMonthlyPayment + totalMonthlyDebt) / monthlyIncome
    * 100 and newDTI = (newMonthlyPayment + totalMonthlyDebt) /
    monthlyIncome * 100. *)
Theorem dti_formulas (st : AppState num) :
  passesValidation st.(data) = true ->
  exists r, fst (calculateFinancials st) = Some r
    /\ Calc.totalMonthlyDebt st.(data) =
         st.(data).(autoDebt) + st.(data).(studentDebt)
         + st.(data).(creditCardDebt) + st.(data).(otherDebt)
    /\ r.(currentDTI) =
         (st.(data).(currentMonthlyPayment) + Calc.totalMonthlyDebt st.(data))
         / st.(data).(monthlyIncome) * lit 100
    /\ r.(newDTI) =
         (r.(newMonthlyPayment) + Calc.totalMonthlyDebt st.(data))
         / st.(data).(monthlyIncome) * lit 100.
Proof.
  intros Hv. rewrite (calculateFinancials_valid st Hv).
  eexists. split; [reflexivity|]. simpl.
  repeat split.
Qed.

(** C2. Validation checks four rules in the order currentHomeValue <= 0,
    newHomePrice <= 0, newInterestRate <= 0, monthlyIncome <= 0.  The first
    rule that fires decides the outcome whatever the later fields hold: the
    function returns null with that rule's message.  Whenever one of the
    four conditions holds there is no result, and when none holds there is
    one: the four rules are all there is. *)
Theorem validation_order (st : AppState num) :
  (homeValueInvalid st.(data) = true ->
     calculateFinancials st =
       (None, setError "Estimated Home Value must be greater than zero." st))
  /\ (homeValueInvalid st.(data) = false ->
      newPriceInvalid st.(data) = true ->
     calculateFinancials st =
       (None, setError "New Home Purchase Price must be greater than zero." st))
  /\ (homeValueInvalid st.(data) = false ->
      newPriceInvalid st.(data) = false ->
      rateInvalid st.(data) = true ->
     calculateFinancials st =
       (None, setError "Estimated New Interest Rate must be greater than zero." st))
  /\ (homeValueInvalid st.(data) = false ->
      newPriceInvalid st.(data) = false ->
      rateInvalid st.(data) = false ->
      incomeInvalid st.(data) = true ->
     calculateFinancials st =
       (None,
        setError "Gross Monthly Income must be greater than zero to calculate DTI." st))
  /\ (homeValueInvalid st.(data) = true \/ newPriceInvalid st.(data) = true
      \/ rateInvalid st.(data) = true \/ incomeInvalid st.(data) = true ->
     fst (calculateFinancials st) = None)
  /\ (homeValueInvalid st.(data) = false ->
      newPriceInvalid st.(data) = false ->
      rateInvalid st.(data) = false ->
      incomeInvalid st.(data) = false ->
     exists r, fst (calculateFinancials st) = Some r).
Proof.
  unfold homeValueInvalid, newPriceInvalid, rateInvalid, incomeInvalid.
  repeat split.
  - intros H1. unfold calculateFinancials. rewrite H1. reflexivity.
  - intros H1 H2. unfold calculateFinancials. rewrite H1, H2. reflexivity.
  - intros H1 H2 H3. unfold calculateFinancials. rewrite H1, H2, H3. reflexivity.
  - intros H1 H2 H3 H4. unfold calculateFinancials.
    rewrite H1, H2, H3, H4. reflexivity.
  - intros Hany. apply calculateFinancials_invalid.
    apply passesValidation_false. exact Hany.
  - intros H1 H2 H3 H4. unfold calculateFinancials.
    rewrite H1, H2, H3, H4. eexists. reflexivity.
Qed.

(** C6. For every profile that passes validation the new monthly payment
    is principal and interest + monthly tax + monthly insurance, where,
    when detailed estimates are present, the monthly tax is
    estimatedTaxes / 12 and the monthly insurance estimatedInsurance / 12,
    and, when they are absent, the monthly tax is newHomePrice * 0.0125 /
    12 and the monthly insurance newHomePrice * 0.005 / 12. *)
Theorem tax_and_insurance (st : AppState num) :
  passesValidation st.(data) = true ->
  exists r, fst (calculateFinancials st) = Some r
    /\ r.(newMonthlyPayment) =
         Calc.principalAndInterest st.(data)
         + Calc.monthlyPropertyTax st.(data) + Calc.monthlyInsurance st.(data)
    /\ (forall details, st.(data).(newHomeDetails) = Some details ->
          Calc.monthlyPropertyTax st.(data) = details.(estimatedTaxes) / lit 12
          /\ Calc.monthlyInsurance st.(data) = details.(estimatedInsurance) / lit 12)
    /\ (st.(data).(newHomeDetails) = None ->
          Calc.monthlyPropertyTax st.(data) =
            st.(data).(newHomePrice) * lit 0.0125 / lit 12
          /\ Calc.monthlyInsurance st.(data) =
            st.(data).(newHomePrice) * lit 0.005 / lit 12).
Proof.
  intros Hv. rewrite (calculateFinancials_valid st Hv).
  eexists. split; [reflexivity|]. simpl.
  unfold Calc.monthlyPropertyTax, Calc.monthlyInsurance.
  repeat split; intros; match goal with E : newHomeDetails _ = _ |- _ => rewrite E end;
    reflexivity.
Qed.

(** *** The click handler *)

Section Click.
Variable getFinancialAnalysis :
  FinancialData num -> CalculationResults num -> string.

(** C5. Negative proceeds are no error.  For every profile that passes
    validation and whose proceeds from the sale are negative, the function
    still returns a complete result, the result carries the negative
    proceeds as computed (home value - mortgage balance - selling costs),
    the only trace is the warning left in [error], and the click handler
    stores the result. *)
Theorem negative_proceeds_still_computed (st : AppState num) :
  passesValidation st.(data) = true ->
  (Calc.proceedsFromSale st.(data) <? lit 0) = true ->
  exists r,
    calculateFinancials st =
      (Some r,
       setError "Warning: Your estimated selling costs are more than your home equity." st)
    /\ r.(proceedsFromSale) =
         st.(data).(currentHomeValue) - st.(data).(currentMortgageBalance)
         - st.(data).(currentHomeValue) * lit 0.08
    /\ (r.(proceedsFromSale) <? lit 0) = true
    /\ r.(newLoanAmount) = Calc.newLoanAmount st.(data)
    /\ r.(newMonthlyPayment) = Calc.newMonthlyPayment st.(data)
    /\ r.(currentDTI) = Calc.currentDTI st.(data)
    /\ r.(newDTI) = Calc.newDTI st.(data)
    /\ r.(monthlyPaymentDifference) = Calc.monthlyPaymentDifference st.(data)
    /\ (handleAnalyzeClick getFinancialAnalysis st).(results) = Some r.
Proof.
  intros Hv Hneg.
  pose proof (calculateFinancials_valid st Hv) as Hc. rewrite Hneg in Hc.
  eexists. split; [exact Hc|]. simpl.
  repeat split; try exact Hneg.
  unfold handleAnalyzeClick. rewrite Hc. reflexivity.
Qed.

(** C9. A validation failure leaves the results slot alone.  For every
    state whose profile fails one of the four rules, the click handler
    changes nothing but [error]: the stored results (if any), the analysis,
    the loading flag and the data are what they were. *)
Theorem validation_failure_keeps_results (st : AppState num) :
  homeValueInvalid st.(data) = true \/ newPriceInvalid st.(data) = true
  \/ rateInvalid st.(data) = true \/ incomeInvalid st.(data) = true ->
  (handleAnalyzeClick getFinancialAnalysis st).(results) = st.(results)
  /\ exists message, handleAnalyzeClick getFinancialAnalysis st = setError message st.
Proof.
  intros Hany. apply passesValidation_false in Hany.
  unfold passesValidation, homeValueInvalid, newPriceInvalid, rateInvalid,
    incomeInvalid in Hany.
  unfold handleAnalyzeClick, calculateFinancials.
  destruct (currentHomeValue (data st) <=? lit 0); [split; [|eexists]; reflexivity|].
  destruct (newHomePrice (data st) <=? lit 0); [split; [|eexists]; reflexivity|].
  destruct (newInterestRate (data st) <=? lit 0); [split; [|eexists]; reflexivity|].
  destruct (monthlyIncome (data st) <=? lit 0); [split; [|eexists]; reflexivity|].
  discriminate Hany.
Qed.

End Click.

End Structure.

(** ** Facts of IEEE-754 arithmetic *)

Section SpecFloatSigns.
Variables prec emax : Z.

Lemma iter_pos_invariant (A : Type) (P : A -> Prop) (f : A -> A) :
  (forall x, P x -> P (f x)) ->
  forall n x, P x -> P (SpecFloat.iter_pos f n x).
Proof.
  intros Hf. induction n as [n IH | n IH | ]; intros x Hx; simpl; auto.
Qed.

Lemma shr_1_nonneg mrs : (0 <= shr_m mrs)%Z -> (0 <= shr_m (shr_1 mrs))%Z.
Proof.
  destruct mrs as [m r s]. simpl.
  destruct m as [ | [p | p | ] | p ]; simpl; lia.
Qed.

Lemma shr_nonneg mrs e n :
  (0 <= shr_m mrs)%Z -> (0 <= shr_m (fst (shr mrs e n)))%Z.
Proof.
  intros Hm. unfold shr. destruct n as [ | p | p ]; simpl; auto.
  apply iter_pos_invariant with (P := fun x => (0 <= shr_m x)%Z); auto.
  apply shr_1_nonneg.
Qed.

Lemma shr_fexp_nonneg m e l :
  (0 <= m)%Z -> (0 <= shr_m (fst (shr_fexp prec emax m e l)))%Z.
Proof.
  intros Hm. unfold shr_fexp. apply shr_nonneg.
  destruct l as [ | [ | | ] ]; simpl; exact Hm.
Qed.

Lemma round_nearest_even_nonneg m l :
  (0 <= m)%Z -> (0 <= round_nearest_even m l)%Z.
Proof.
  intros Hm. unfold round_nearest_even.
  destruct l as [ | [ | | ] ]; try destruct (Z.even m); lia.
Qed.

(** Rounding a non-negative mantissa with a positive sign never yields a
    negative number or NaN. *)
Lemma binary_round_aux_nonneg m e l :
  (0 <= m)%Z -> sf_nonneg (binary_round_aux prec emax false m e l).
Proof.
  intros Hm. unfold binary_round_aux.
  pose proof (@shr_fexp_nonneg m e l Hm) as H1.
  destruct (shr_fexp prec emax m e l) as [mrs' e']. simpl in H1.
  pose proof (@shr_fexp_nonneg _ e' loc_Exact
                (@round_nearest_even_nonneg _ (loc_of_shr_record mrs') H1)) as H2.
  destruct (shr_fexp prec emax _ e' loc_Exact) as [mrs'' e'']. simpl in H2.
  destruct (shr_m mrs'') as [ | p | p ]; simpl; auto; try lia.
  destruct (e'' <=? emax - prec)%Z; reflexivity.
Qed.




End SpecFloatSigns.

Section Doubles.
Local Open Scope float_scope.

(** The literals of the program denote the doubles JavaScript reads them
    as, and 30 * 12 is 360. *)
Lemma js_literals :
  float_lit 0 = 0 /\ float_lit 1 = 1 /\ float_lit 12 = 12
  /\ float_lit 30 = 30 /\ float_lit 100 = 100
  /\ float_lit 0.08 = 0.08 /\ float_lit 0.0125 = 0.0125
  /\ float_lit 0.005 = 0.005 /\ float_lit 30 * float_lit 12 = 360.
Proof. vm_compute. repeat split. Qed.



Lemma float_eq_0_not_gt (x : float) : (x =? 0) = true -> (0 <? x) = false.
Proof.
  rewrite FloatAxioms.eqb_spec, FloatAxioms.ltb_spec.
  change (Prim2SF 0) with (S754_zero false).
  destruct (Prim2SF x) as [s | [ | ] | | [ | ] m e]; unfold SFltb, SFeqb; simpl;
    try discriminate; reflexivity.
Qed.



End Doubles.

(** ** The calculation on doubles *)

Section OnDoubles.
Variable pow : float -> float -> float.
Local Notation "'js'" := (js_number pow).
Local Open Scope float_scope.

(** C3. For every profile that passes validation, the selling costs are
    currentHomeValue * 0.08 and the proceeds from the sale returned are
    currentHomeValue - currentMortgageBalance - sellingCosts; with a home
    worth 500000 and a mortgage balance of 250000 the selling costs are
    40000 and the proceeds 210000. *)
Theorem selling_costs_and_proceeds (st : AppState float) :
  passesValidation (N := js) st.(data) = true ->
  exists r, fst (calculateFinancials (N := js) st) = Some r
    /\ Calc.sellingCosts (N := js) st.(data) = st.(data).(currentHomeValue) * 0.08
    /\ r.(proceedsFromSale) =
         st.(data).(currentHomeValue) - st.(data).(currentMortgageBalance)
         - Calc.sellingCosts (N := js) st.(data)
    /\ (st.(data).(currentHomeValue) = 500000 ->
        st.(data).(currentMortgageBalance) = 250000 ->
        Calc.sellingCosts (N := js) st.(data) = 40000
        /\ r.(proceedsFromSale) = 210000).
Proof.
  intros Hv. rewrite (calculateFinancials_valid st Hv).
  eexists. split; [reflexivity|]. simpl.
  unfold Calc.proceedsFromSale, Calc.sellingCosts. simpl.
  change (float_lit 0.08) with 0.08.
  split; [reflexivity|]. split; [reflexivity|].
  intros Evalue Ebalance. rewrite Evalue, Ebalance.
  split; reflexivity.
Qed.


(** C7. Principal and interest follow the 360-payment amortization
    formula.  With the monthly rate r = newInterestRate / 100 / 12 and
    p = Math.pow(1 + r, 360): when r > 0 it is newLoanAmount * (r * p) /
    (p - 1), the product grouped as the source writes it, and when r is 0
    it is newLoanAmount / 360.  The constants are defined on any data, so
    the zero-rate case is reached without going through validation.  On a
    profile that passes validation this figure is the first summand of
    the new monthly payment. *)
Theorem amortization_formula (d : FinancialData float) :
  let r := d.(newInterestRate) / 100 / 12 in
  let p := pow (1 + r) 360 in
  let L := Calc.newLoanAmount (N := js) d in
  Calc.monthlyRate (N := js) d = r
  /\ Calc.numberOfPayments (N := js) = 360
  /\ ((0 <? r) = true ->
      Calc.principalAndInterest (N := js) d = L * (r * p) / (p - 1))
  /\ ((r =? 0) = true ->
      Calc.principalAndInterest (N := js) d = L / 360)
  /\ (forall st : AppState float,
        st.(data) = d -> passesValidation (N := js) d = true ->
        exists res, fst (calculateFinancials (N := js) st) = Some res
          /\ res.(newMonthlyPayment) =
               Calc.principalAndInterest (N := js) d
               + Calc.monthlyPropertyTax (N := js) d
               + Calc.monthlyInsurance (N := js) d).
Proof.
  intros r p L.
  assert (Hr : Calc.monthlyRate (N := js) d = r) by reflexivity.
  split; [exact Hr|]. split; [reflexivity|].
  unfold Calc.principalAndInterest. rewrite Hr. simpl.
  change (float_lit 0) with 0. change (float_lit 1) with 1.
  change (Calc.numberOfPayments (N := js)) with 360.
  fold r. fold p. fold L.
  split; [|split].
  - intros Hpos. rewrite Hpos. reflexivity.
  - intros Hzero. rewrite (float_eq_0_not_gt _ Hzero). reflexivity.
  - intros st Hd Hv. subst d. rewrite (calculateFinancials_valid st Hv).
    eexists. split; reflexivity.
Qed.


End OnDoubles.

(** ** The calculation in exact arithmetic *)

Section Exactly.
Local Open Scope Q_scope.

(** In exact arithmetic the grouping of the product in the amortization
    formula is immaterial: principal and interest are newLoanAmount * r *
    (1+r)^360 / ((1+r)^360 - 1) read from left to right. *)
Lemma amortization_formula_exact (d : FinancialData Q) :
  let r := d.(newInterestRate) / 100 / 12 in
  negb (Qle_bool r 0) = true ->
  Calc.principalAndInterest (N := exact) d ==
    Calc.newLoanAmount (N := exact) d * r * (1 + r) ^ 360
    / ((1 + r) ^ 360 - 1).
Proof.
  intros r Hpos. unfold Calc.principalAndInterest.
  change (Calc.monthlyRate (N := exact) d) with r.
  change (@nlt Q exact (@lit Q exact 0) r) with (negb (Qle_bool r 0)).
  rewrite Hpos.
  change (@Math_pow Q exact (@nadd Q exact (@lit Q exact 1) r)
            (Calc.numberOfPayments (N := exact))) with ((1 + r) ^ 360).
  set (p := (1 + r) ^ 360).
  cbn [nmul ndiv nsub exact lit].
  unfold Qdiv. ring.
Qed.

(** C10, in exact arithmetic.  For every profile that passes validation,
    newDTI - currentDTI = monthlyPaymentDifference / monthlyIncome * 100
    when the formulas are evaluated over the rationals: the recurring
    debts cancel. *)
Theorem dti_change_exact (st : AppState Q) :
  passesValidation (N := exact) st.(data) = true ->
  exists r, fst (calculateFinancials (N := exact) st) = Some r
    /\ r.(newDTI) - r.(currentDTI) ==
       r.(monthlyPaymentDifference) / st.(data).(monthlyIncome) * 100.
Proof.
  intros Hv. rewrite (calculateFinancials_valid st Hv).
  eexists. split; [reflexivity|]. simpl.
  unfold Calc.newDTI, Calc.currentDTI, Calc.monthlyPaymentDifference,
    Calc.newTotalMonthlyPayments, Calc.currentTotalMonthlyPayments.
  cbn [nadd nsub nmul ndiv exact lit].
  unfold Qdiv. ring.
Qed.

End Exactly.

(** ** The claims at concrete profiles *)

Section Concretely.
Local Notation "'js0'" := (js_number pow_by_squaring).
Local Open Scope float_scope.

Ltac evaluated H := vm_compute in H; injection H as <-.

(** The initial profile: DTI 28.000000000000004 % before and about 55.07 %
    after the move. *)
Lemma dti_formulas_witness :
  exists r, fst (calculateFinancials (N := js0) initialState) = Some r
    /\ Calc.totalMonthlyDebt (N := js0) initialData = 1000
    /\ r.(currentDTI) = 28.000000000000004
    /\ r.(newDTI) = 55.069173268620119.
Proof.
  destruct (dti_formulas (N := js0) initialState) as (r & Hr & Ht & Hc & Hn).
  - vm_compute. reflexivity.
  - exists r. split; [exact Hr|]. rewrite Hc, Hn. evaluated Hr.
    vm_compute. repeat split.
Defined.

(** No income entered: the fourth rule fires and there is no result. *)
Lemma validation_order_witness :
  calculateFinancials (N := js0) (withData noIncomeData initialState) =
    (None,
     setError "Gross Monthly Income must be greater than zero to calculate DTI."
       (withData noIncomeData initialState))
  /\ (exists r, fst (calculateFinancials (N := js0) initialState) = Some r).
Proof.
  destruct (validation_order (N := js0) (withData noIncomeData initialState))
    as (_ & _ & _ & H4 & _ & _).
  destruct (validation_order (N := js0) initialState) as (_ & _ & _ & _ & _ & H6).
  split.
  - apply H4; vm_compute; reflexivity.
  - apply H6; vm_compute; reflexivity.
Defined.

(** End-to-end example 1: selling costs 40000, proceeds 210000. *)
Lemma selling_costs_and_proceeds_witness :
  exists r, fst (calculateFinancials (N := js0) initialState) = Some r
    /\ Calc.sellingCosts (N := js0) initialData = 40000
    /\ r.(proceedsFromSale) = 210000
    /\ r.(newLoanAmount) = 540000.
Proof.
  destruct (selling_costs_and_proceeds pow_by_squaring initialState)
    as (r & Hr & _ & _ & Hex).
  - vm_compute. reflexivity.
  - destruct Hex as [Hs Hp]; try reflexivity.
    exists r. split; [exact Hr|]. split; [exact Hs|]. split; [exact Hp|].
    evaluated Hr. reflexivity.
Defined.


Lemma negative_proceeds_still_computed_witness :
  exists r,
    calculateFinancials (N := js0) (withData underwaterData initialState) =
      (Some r,
       setError "Warning: Your estimated selling costs are more than your home equity."
         (withData underwaterData initialState))
    /\ r.(proceedsFromSale) = (-108000)
    /\ (handleAnalyzeClick (N := js0) cannedAnalysis
          (withData underwaterData initialState)).(results) = Some r.
Proof.
  destruct (negative_proceeds_still_computed (N := js0) cannedAnalysis
              (withData underwaterData initialState))
    as (r & Hr & Hp & _ & _ & _ & _ & _ & _ & Hs).
  - vm_compute. reflexivity.
  - vm_compute. reflexivity.
  - exists r. split; [exact Hr|]. split; [|exact Hs].
    rewrite Hp. vm_compute. reflexivity.
Defined.

(** Estimates of 9000 and 2400 a year: 750 and 200 a month. *)
Lemma tax_and_insurance_witness :
  Calc.monthlyPropertyTax (N := js0) detailedData = 750
  /\ Calc.monthlyInsurance (N := js0) detailedData = 200
  /\ Calc.monthlyPropertyTax (N := js0) initialData = 781.25
  /\ Calc.monthlyInsurance (N := js0) initialData = 312.5.
Proof.
  destruct (tax_and_insurance (N := js0) (withData detailedData initialState))
    as (r & _ & _ & Hsome & _).
  { vm_compute. reflexivity. }
  destruct (tax_and_insurance (N := js0) initialState) as (r' & _ & _ & _ & Hnone).
  { vm_compute. reflexivity. }
  destruct (Hsome _ eq_refl) as [Ht Hi].
  destruct (Hnone eq_refl) as [Ht' Hi'].
  simpl in Ht, Hi, Ht', Hi'.
  rewrite Ht, Hi, Ht', Hi'. vm_compute. repeat split.
Defined.

(** A rate of 0 put into the data directly: 540000 / 360 = 1500; at the
    initial 6.5 % the rate is positive and the formula applies. *)
Lemma amortization_formula_witness :
  Calc.principalAndInterest (N := js0) zeroRateData = 1500
  /\ Calc.principalAndInterest (N := js0) initialData =
       540000 * (6.5 / 100 / 12 * pow_by_squaring (1 + 6.5 / 100 / 12) 360)
       / (pow_by_squaring (1 + 6.5 / 100 / 12) 360 - 1)
  /\ exists res, fst (calculateFinancials (N := js0) initialState) = Some res
       /\ res.(newMonthlyPayment) = 4506.9173268620125.
Proof.
  destruct (amortization_formula pow_by_squaring zeroRateData)
    as (_ & _ & _ & Hzero & _).
  destruct (amortization_formula pow_by_squaring initialData)
    as (_ & _ & Hpos & _ & Hres).
  split; [|split].
  - rewrite Hzero; vm_compute; reflexivity.
  - rewrite Hpos; vm_compute; reflexivity.
  - destruct (Hres initialState) as (res & Hr & Hp); try (vm_compute; reflexivity).
    exists res. split; [exact Hr|]. rewrite Hp. vm_compute. reflexivity.
Defined.



(** With the tiny rate the monthly rate underflows to 0, [Math.pow] is
    never called, and the result is the same on every engine. *)
Lemma tiny_rate_any_pow (pow : float -> float -> float) (st : AppState float) :
  fst (calculateFinancials (N := js_number pow) (withData tinyRateData st)) =
  Some {| proceedsFromSale := 210000;
          newLoanAmount := 540000;
          newMonthlyPayment := 2593.75;
          currentDTI := 28.000000000000004;
          newDTI := 35.9375;
          monthlyPaymentDifference := 793.75 |}.
Proof. vm_compute. reflexivity. Qed.

(** C10, refuted as stated.  The initial profile with a rate of 1e-322
    passes validation.  The rate divided by 100 underflows to 0, so
    principal and interest are 540000 / 360 = 1500 and the new payment is
    1500 + 781.25 + 312.5 = 2593.75.  Then currentDTI = 2800 / 10000 * 100
    = 28.000000000000004 (0.28 is not a double), newDTI = 3593.75 / 10000
    * 100 = 35.9375, and newDTI - currentDTI = 7.9374999999999964, while
    monthlyPaymentDifference / monthlyIncome * 100 = 793.75 / 10000 * 100
    = 7.9375. *)
Lemma dti_change_differs_on_doubles :
  passesValidation (N := js0) tinyRateData = true
  /\ exists r,
       fst (calculateFinancials (N := js0)
              (withData tinyRateData initialState)) = Some r
       /\ r.(newDTI) - r.(currentDTI) = 7.9374999999999964
       /\ r.(monthlyPaymentDifference) / tinyRateData.(monthlyIncome) * 100 = 7.9375
       /\ r.(newDTI) - r.(currentDTI) <>
          r.(monthlyPaymentDifference) / tinyRateData.(monthlyIncome) * 100.
Proof.
  split; [vm_compute; reflexivity|].
  eexists. split; [apply tiny_rate_any_pow|]. simpl.
  split; [vm_compute; reflexivity|]. split; [vm_compute; reflexivity|].
  intros E. apply (f_equal Prim2SF) in E. vm_compute in E. discriminate E.
Qed.

(** The same happens at the initial profile when [Math.pow] is
    [pow_by_squaring]. *)
Lemma dti_change_differs_at_initial_profile :
  exists r, fst (calculateFinancials (N := js0) initialState) = Some r
    /\ r.(newDTI) - r.(currentDTI) = 27.069173268620116
    /\ r.(monthlyPaymentDifference) / initialData.(monthlyIncome) * 100
       = 27.069173268620123.
Proof.
  eexists. split; [vm_compute; reflexivity|]. simpl.
  split; vm_compute; reflexivity.
Qed.

(** No income entered while earlier results are on display: they stay. *)
Lemma validation_failure_keeps_results_witness :
  (handleAnalyzeClick (N := js0) cannedAnalysis (analysedState noIncomeData)).(results)
    = (analysedState noIncomeData).(results)
  /\ exists message,
       handleAnalyzeClick (N := js0) cannedAnalysis (analysedState noIncomeData)
       = setError message (analysedState noIncomeData).
Proof.
  apply (validation_failure_keeps_results (N := js0) cannedAnalysis
           (analysedState noIncomeData)).
  right. right. right. vm_compute. reflexivity.
Defined.

Lemma dti_change_exact_witness :
  exists r, fst (calculateFinancials (N := exact) initialStateQ) = Some r
    /\ (r.(newDTI) - r.(currentDTI) ==
        r.(monthlyPaymentDifference) / initialDataQ.(monthlyIncome) * 100)%Q.
Proof.
  apply (dti_change_exact initialStateQ). vm_compute. reflexivity.
Defined.

End Concretely.

(** * The rest of the application: properties *)

Section Strings.

Lemma isDigit_not_space c : isDigit c = true -> isWhiteSpace c = false.
Proof.
  unfold isDigit, isWhiteSpace. intros H.
  apply andb_true_iff in H. destruct H as [H1 H2].
  apply N.leb_le in H1. apply N.leb_le in H2.
  repeat match goal with
  | |- context [(c =? ?k)%N] =>
      replace (c =? k)%N with false by (symmetry; apply N.eqb_neq; lia)
  end.
  replace (8192 <=? c)%N with false by (symmetry; apply N.leb_gt; lia).
  reflexivity.
Qed.

Lemma filter_digits_trimStart s : filter isDigit (trimStart s) = filter isDigit s.
Proof.
  induction s as [ | c s IH]; simpl; [reflexivity|].
  destruct (isWhiteSpace c) eqn:Hw; [|reflexivity].
  rewrite IH. destruct (isDigit c) eqn:Hd; [|reflexivity].
  rewrite (isDigit_not_space c Hd) in Hw. discriminate.
Qed.

Lemma filter_rev {A} (f : A -> bool) (l : list A) : filter f (rev l) = rev (filter f l).
Proof.
  induction l as [ | a l IH]; simpl; [reflexivity|].
  rewrite filter_app, IH. simpl. destruct (f a); simpl; [reflexivity|].
  apply app_nil_r.
Qed.

Lemma filter_digits_trim s : filter isDigit (trim s) = filter isDigit s.
Proof.
  unfold trim, trimEnd.
  rewrite filter_rev, filter_digits_trimStart, filter_rev, rev_involutive.
  apply filter_digits_trimStart.
Qed.

Lemma filter_idem {A} (f : A -> bool) (l : list A) : filter f (filter f l) = filter f l.
Proof.
  induction l as [ | a l IH]; simpl; [reflexivity|].
  destruct (f a) eqn:E; simpl; rewrite ?E, IH; reflexivity.
Qed.

Lemma leadingDigits_all s : Forall (fun c => isDigit c = true) s -> leadingDigits s = s.
Proof.
  induction 1 as [ | c s Hc _ IH]; simpl; [reflexivity|]. rewrite Hc, IH. reflexivity.
Qed.

Lemma digits_filter s : Forall (fun c => isDigit c = true) (filter isDigit s).
Proof. apply Forall_forall. intros c Hc. apply filter_In in Hc. tauto. Qed.

(** On a string of digits [parseInt] reads the whole string. *)
Lemma parseInt10_digits s :
  Forall (fun c => isDigit c = true) s ->
  parseInt10 s =
    match s with
    | [] => nan
    | _ :: _ => numberOfZ (decimalValue s) false
    end.
Proof.
  intros Hs. unfold parseInt10.
  destruct s as [ | c s]; [reflexivity|].
  inversion Hs as [ | ? ? Hc Hrest]; subst.
  simpl trimStart. rewrite (isDigit_not_space c Hc).
  assert (H45 : (c =? 45)%N = false).
  { unfold isDigit in Hc. apply andb_true_iff in Hc. destruct Hc as [H1 _].
    apply N.leb_le in H1. apply N.eqb_neq. lia. }
  assert (H43 : (c =? 43)%N = false).
  { unfold isDigit in Hc. apply andb_true_iff in Hc. destruct Hc as [H1 _].
    apply N.leb_le in H1. apply N.eqb_neq. lia. }
  rewrite H45, H43. simpl orb. cbv iota.
  rewrite (leadingDigits_all _ Hs). reflexivity.
Qed.

Lemma decimalValue_nonneg_from s acc :
  Forall (fun c => isDigit c = true) s -> (0 <= acc)%Z ->
  (0 <= fold_left (fun a c => 10 * a + (Z.of_N c - 48))%Z s acc)%Z.
Proof.
  intros Hs. revert acc. induction Hs as [ | c s Hc _ IH]; intros acc Hacc; cbn [fold_left]; [exact Hacc|].
  apply IH. unfold isDigit in Hc. apply andb_true_iff in Hc. destruct Hc as [H1 _].
  apply N.leb_le in H1. lia.
Qed.

Lemma decimalValue_nonneg s :
  Forall (fun c => isDigit c = true) s -> (0 <= decimalValue s)%Z.
Proof. intros Hs. apply decimalValue_nonneg_from; [exact Hs|lia]. Qed.

End Strings.

Section Conversion.

Lemma binary_normalize_nonneg prec emax m e :
  (0 <= m)%Z -> sf_nonneg (binary_normalize prec emax m e false).
Proof.
  intros Hm. destruct m as [ | p | p]; simpl; auto; try lia.
  unfold binary_round. destruct (shl_align _ _ _) as [mz ez].
  apply binary_round_aux_nonneg. lia.
Qed.

Lemma SFldexp_nonneg prec emax f e : sf_nonneg f -> sf_nonneg (SFldexp prec emax f e).
Proof.
  destruct f as [s | s | | s m ex]; simpl; auto.
  intros ->. unfold binary_round. destruct (shl_align _ _ _) as [mz ez].
  apply binary_round_aux_nonneg. lia.
Qed.

Lemma SF2Prim_nonneg x : sf_nonneg x -> sf_nonneg (Prim2SF (SF2Prim x)).
Proof.
  destruct x as [[ | ] | s | | s m e]; simpl; intros Hx; try (exact I); try contradiction.
  - subst s. reflexivity.
  - subst s. unfold Z.ldexp. rewrite ldshiftexp_spec, of_uint63_spec.
    apply SFldexp_nonneg. apply binary_normalize_nonneg.
    apply Uint63.to_Z_bounded.
Qed.

Lemma numberOfZ_nonneg z : (0 <= z)%Z -> sf_nonneg (Prim2SF (numberOfZ z false)).
Proof.
  intros Hz. apply SF2Prim_nonneg. apply binary_normalize_nonneg. exact Hz.
Qed.

Lemma float_nonneg_nonzero_pos (v : float) :
  sf_nonneg (Prim2SF v) -> (v =? 0)%float = false -> (0 <? v)%float = true.
Proof.
  rewrite FloatAxioms.eqb_spec, FloatAxioms.ltb_spec.
  change (Prim2SF 0) with (S754_zero false).
  destruct (Prim2SF v) as [s | s | | s m e]; simpl; unfold SFeqb, SFltb; simpl;
    intros Hs; try subst s; try contradiction; try discriminate; reflexivity.
Qed.

Lemma float_not_nan_not_le_0 (x : float) :
  is_nan x = false -> (x <=? 0)%float = false -> (0 <? x)%float = true.
Proof.
  unfold is_nan. rewrite FloatAxioms.eqb_spec, FloatAxioms.leb_spec, FloatAxioms.ltb_spec.
  change (Prim2SF 0) with (S754_zero false).
  destruct (Prim2SF x) as [s | [ | ] | | [ | ] m e]; unfold SFeqb, SFleb, SFltb; simpl;
    try discriminate; try reflexivity.
Qed.

End Conversion.

Section Service.
Local Open Scope string_scope.

Lemma float_nonneg_not_nan (v : float) : sf_nonneg (Prim2SF v) -> is_nan v = false.
Proof.
  unfold is_nan. rewrite FloatAxioms.eqb_spec.
  destruct (Prim2SF v) as [s | s | | s m e]; simpl; unfold SFeqb; simpl;
    intros Hs; try subst s; try contradiction; try reflexivity.
  rewrite Z.compare_refl, Pos.compare_cont_refl. reflexivity.
Qed.

Lemma getEstimatedHomeValue_digits (address : string) (text : ustring) :
  isEmpty address = false ->
  getEstimatedHomeValue address (ResponseText text) =
    let digits := filter isDigit text in
    match digits with
    | [] =>
        Rejected (ErrorObject
          "Could not estimate a value for this address. Please enter a value manually.")
    | _ :: _ =>
        if (numberOfZ (decimalValue digits) false =? 0)%float then
          Rejected (ErrorObject
            "Could not estimate a value for this address. Please enter a value manually.")
        else Fulfilled (numberOfZ (decimalValue digits) false)
    end.
Proof.
  intros Haddr. unfold getEstimatedHomeValue. rewrite Haddr.
  rewrite filter_digits_trim.
  pose proof (digits_filter text) as Hd.
  rewrite (parseInt10_digits _ Hd). cbv zeta.
  destruct (filter isDigit text) as [ | c digits] eqn:E; [reflexivity|].
  rewrite (float_nonneg_not_nan _ (numberOfZ_nonneg _ (decimalValue_nonneg _ Hd))).
  reflexivity.
Qed.

Lemma getEstimatedHomeValue_outcomes (address : string) (response : GenerateContent) :
  (forall v, getEstimatedHomeValue address response = Fulfilled v ->
     isEmpty address = false /\ is_nan v = false /\ (0 <? v)%float = true)
  /\ (forall reason, getEstimatedHomeValue address response = Rejected reason ->
        reason = ErrorObject "Address is required to estimate home value."
        \/ reason = ErrorObject
             "Could not estimate a value for this address. Please enter a value manually.").
Proof.
  split.
  - intros v Hv. destruct (isEmpty address) eqn:Haddr.
    + unfold getEstimatedHomeValue in Hv. rewrite Haddr in Hv. discriminate.
    + split; [reflexivity|].
      destruct response as [text | ].
      * rewrite (getEstimatedHomeValue_digits _ _ Haddr) in Hv. cbv zeta in Hv.
        pose proof (digits_filter text) as Hd.
        destruct (filter isDigit text) as [ | c digits]; [discriminate|].
        destruct (numberOfZ _ false =? 0)%float eqn:Hz; [discriminate|].
        injection Hv as <-.
        pose proof (numberOfZ_nonneg _ (decimalValue_nonneg _ Hd)) as Hn.
        split; [exact (float_nonneg_not_nan _ Hn)|].
        exact (float_nonneg_nonzero_pos _ Hn Hz).
      * unfold getEstimatedHomeValue in Hv. rewrite Haddr in Hv. discriminate.
  - intros reason Hr. unfold getEstimatedHomeValue in Hr.
    destruct (isEmpty address); [injection Hr as <-; left; reflexivity|].
    destruct response as [text | ]; [|injection Hr as <-; right; reflexivity].
    destruct (is_nan _ || _); [injection Hr as <-; right; reflexivity|discriminate].
Qed.

End Service.

Section RecordUpdates.
Local Open Scope string_scope.

Lemma numericField_assignNumber_same (name : string) (v : float) (d : FinancialData float) :
  In name numericFields -> numericField name (assignNumber name v d) = Some v.
Proof.
  intros Hin. unfold numericFields in Hin.
  repeat (destruct Hin as [<- | Hin]; [reflexivity|]). destruct Hin.
Qed.

Lemma numericField_assignNumber_other (name other : string) (v : float)
    (d : FinancialData float) :
  other <> name ->
  numericField other (assignNumber name v d) = numericField other d.
Proof.
  intros Hne. unfold numericField, assignNumber.
  cbn [currentHomeValue currentMortgageBalance currentInterestRate
       currentMonthlyPayment newHomePrice newInterestRate monthlyIncome
       autoDebt studentDebt creditCardDebt otherDebt].
  repeat match goal with
  | |- context [(other =? ?f)] =>
      destruct (String.eqb_spec other f) as [-> | _];
        [ rewrite (proj2 (String.eqb_neq name f)) by congruence; reflexivity | ]
  end.
  reflexivity.
Qed.

Lemma numericField_assignNumber_cases (name other : string) (v x : float)
    (d : FinancialData float) :
  numericField other (assignNumber name v d) = Some x ->
  x = v \/ numericField other d = Some x.
Proof.
  destruct (String.eqb_spec other name) as [-> | Hne].
  - intros Hx. left.
    unfold numericField, assignNumber in Hx.
    cbn [currentHomeValue currentMortgageBalance currentInterestRate
         currentMonthlyPayment newHomePrice newInterestRate monthlyIncome
         autoDebt studentDebt creditCardDebt otherDebt] in Hx.
    repeat match type of Hx with
    | context [(name =? ?f)] =>
        destruct (name =? f); [injection Hx as <-; reflexivity|]
    end.
    discriminate Hx.
  - rewrite (numericField_assignNumber_other _ _ _ _ Hne). intros Hx. right. exact Hx.
Qed.

Lemma numericField_assignText (name other value : string) (d : FinancialData float) :
  numericField other (assignText name value d) = numericField other d.
Proof. reflexivity. Qed.

Lemma numericField_withNewHomeDetails (other : string) details (d : FinancialData float) :
  numericField other (withNewHomeDetails details d) = numericField other d.
Proof. reflexivity. Qed.

End RecordUpdates.

Section CleanData.

Lemma truthyNumber_not_nan (x : float) : truthyNumber x = true -> is_nan x = false.
Proof.
  unfold truthyNumber. intros H. apply negb_true_iff in H.
  apply orb_false_iff in H. tauto.
Qed.

Lemma sanitised_not_nan (x : float) :
  is_nan (if truthyNumber x then x else 0%float) = false.
Proof.
  destruct (truthyNumber x) eqn:E; [exact (truthyNumber_not_nan x E)|reflexivity].
Qed.

Lemma cleanData_initial : cleanData initialData.
Proof.
  split.
  - intros name x. unfold numericField.
    repeat match goal with
    | |- context [(name =? ?f)%string] =>
        destruct (name =? f)%string; [intros Hx; injection Hx as <-; reflexivity|]
    end.
    discriminate.
  - discriminate.
Qed.

Lemma cleanData_assignNumber name v d :
  is_nan v = false -> cleanData d -> cleanData (assignNumber name v d).
Proof.
  intros Hv [Hnum Hdet]. split.
  - intros other x Hx.
    destruct (numericField_assignNumber_cases _ _ _ _ _ Hx) as [-> | Hold];
      [exact Hv | exact (Hnum _ _ Hold)].
  - exact Hdet.
Qed.

Lemma cleanData_assignText name value d : cleanData d -> cleanData (assignText name value d).
Proof. intros [Hnum Hdet]. split; [exact Hnum|exact Hdet]. Qed.

End CleanData.

Section HandlerProperties.
Local Open Scope string_scope.
Variable parseFloat : string -> float.
Variable JSON_parse : ustring -> option ParsedDetails.
Variable pow : float -> float -> float.
Variable getFinancialAnalysis :
  FinancialData float -> CalculationResults float -> string.
Local Notation "'js'" := (js_number pow).

Lemma getNewHomeDetails_outcomes address price response :
  (forall details,
     getNewHomeDetails JSON_parse address price response = Fulfilled details ->
     isEmpty address = false
     /\ truthyNumber details.(estimatedTaxes) = true
     /\ truthyNumber details.(estimatedInsurance) = true
     /\ isEmpty details.(marketTrends) = false)
  /\ (forall reason,
        getNewHomeDetails JSON_parse address price response = Rejected reason ->
        reason = ErrorObject "Address is required to get home details."
        \/ reason = ErrorObject
             "Could not retrieve details for the new address. Please check the address and try again.").
Proof.
  unfold getNewHomeDetails. split.
  - intros details H.
    destruct (isEmpty address); [discriminate|]. split; [reflexivity|].
    destruct response as [raw | ]; [|discriminate].
    destruct (JSON_parse (trim raw)) as [parsed | ]; [|discriminate].
    destruct (parsedTaxes parsed) as [taxes | ]; [|discriminate].
    destruct (parsedInsurance parsed) as [insurance | ]; [|discriminate].
    destruct (parsedTrends parsed) as [trends | ]; [|discriminate].
    destruct (truthyNumber taxes) eqn:H1; [|discriminate].
    destruct (truthyNumber insurance) eqn:H2; [|discriminate].
    destruct (isEmpty trends) eqn:H3; [discriminate|].
    injection H as <-. repeat split; assumption.
  - intros reason H.
    destruct (isEmpty address); [injection H as <-; left; reflexivity|]. right.
    destruct response as [raw | ]; [|injection H as <-; reflexivity].
    destruct (JSON_parse (trim raw)) as [parsed | ]; [|injection H as <-; reflexivity].
    destruct (parsedTaxes parsed) as [taxes | ]; [|injection H as <-; reflexivity].
    destruct (parsedInsurance parsed) as [insurance | ]; [|injection H as <-; reflexivity].
    destruct (parsedTrends parsed) as [trends | ]; [|injection H as <-; reflexivity].
    destruct (negb (truthyNumber taxes) || negb (truthyNumber insurance) || isEmpty trends);
      [injection H as <-; reflexivity|discriminate].
Qed.

Lemma handleAnalyzeClick_data (st : AppState float) :
  data (handleAnalyzeClick (N := js) getFinancialAnalysis st) = data st.
Proof.
  unfold handleAnalyzeClick.
  destruct (passesValidation (N := js) (data st)) eqn:Hv.
  - rewrite (calculateFinancials_valid st Hv).
    destruct (nlt _ _); reflexivity.
  - pose proof (calculateFinancials_invalid st Hv) as (Hnone & _ & _ & _ & Hd).
    destruct (calculateFinancials st) as [r st']. simpl in Hnone, Hd. subst r. exact Hd.
Qed.

Lemma handleGetValue_data response st :
  data (handleGetValue response st) = data st
  \/ exists v, is_nan v = false /\ (0 <? v)%float = true
       /\ isEmpty st.(data).(currentHomeAddress) = false
       /\ getEstimatedHomeValue st.(data).(currentHomeAddress) response = Fulfilled v
       /\ data (handleGetValue response st) = withCurrentHomeValue v (data st).
Proof.
  unfold handleGetValue.
  destruct (isEmpty (currentHomeAddress (data st))) eqn:Haddr; [left; reflexivity|].
  destruct (getEstimatedHomeValue (currentHomeAddress (data st)) response)
    as [v | [message | ]] eqn:E; [|left; reflexivity|left; reflexivity].
  right. exists v.
  destruct (getEstimatedHomeValue_outcomes (currentHomeAddress (data st)) response)
    as [Hok _].
  destruct (Hok v E) as (_ & Hnan & Hpos).
  repeat split; assumption.
Qed.

Lemma handleGetNewHomeDetails_data response st :
  data (handleGetNewHomeDetails JSON_parse response st) = data st
  \/ exists details,
       truthyNumber details.(estimatedTaxes) = true
       /\ truthyNumber details.(estimatedInsurance) = true
       /\ isEmpty details.(marketTrends) = false
       /\ data (handleGetNewHomeDetails JSON_parse response st)
          = withNewHomeDetails details (data st).
Proof.
  unfold handleGetNewHomeDetails.
  destruct (isEmpty (newHomeAddress (data st))) eqn:Haddr; [left; reflexivity|].
  destruct (getNewHomeDetails JSON_parse _ _ response)
    as [details | [message | ]] eqn:E; [|left; reflexivity|left; reflexivity].
  right. exists details.
  destruct (getNewHomeDetails_outcomes (newHomeAddress (data st))
              (newHomePrice (data st)) response) as [Hok _].
  destruct (Hok details E) as (_ & H1 & H2 & H3).
  repeat split; assumption.
Qed.

Lemma reachable_cleanData st :
  reachable parseFloat JSON_parse pow getFinancialAnalysis st -> cleanData (data st).
Proof.
  induction 1 as [ | name value st _ IH | response st _ IH | response st _ IH
                   | st _ IH | open st _ IH ].
  - exact cleanData_initial.
  - unfold handleInputChange.
    destruct ((name =? "newHomeAddress") || (name =? "currentHomeAddress")).
    + apply cleanData_assignText. exact IH.
    + apply cleanData_assignNumber; [apply sanitised_not_nan|exact IH].
  - destruct (handleGetValue_data response st) as [-> | (v & Hnan & _ & _ & _ & ->)];
      [exact IH|].
    apply cleanData_assignNumber; assumption.
  - destruct (handleGetNewHomeDetails_data response st)
      as [-> | (details & H1 & H2 & H3 & ->)]; [exact IH|].
    destruct IH as [Hnum _]. split; [exact Hnum|].
    intros details' Hd. injection Hd as <-. repeat split; assumption.
  - rewrite handleAnalyzeClick_data. exact IH.
  - exact IH.
Qed.

End HandlerProperties.

Section HandlerTheorems.
Local Open Scope string_scope.
Variable parseFloat : string -> float.
Variable JSON_parse : ustring -> option ParsedDetails.
Variable pow : float -> float -> float.
Variable getFinancialAnalysis :
  FinancialData float -> CalculationResults float -> string.
Local Notation "'js'" := (js_number pow).

(** X1. An input event on a numeric field stores [parseFloat(value) || 0]
    in that field: the number read or, when nothing truthy is read, 0.
    What is stored is never NaN; every other numeric field, the addresses,
    the details, the results and the error are untouched. *)
Theorem input_is_sanitised (name value : string) (st : AppState float) :
  In name numericFields ->
  numericField name (data (handleInputChange parseFloat name value st))
    = Some (if truthyNumber (parseFloat value) then parseFloat value else 0%float)
  /\ is_nan (if truthyNumber (parseFloat value) then parseFloat value else 0%float)
     = false
  /\ (forall other, other <> name ->
        numericField other (data (handleInputChange parseFloat name value st))
        = numericField other (data st))
  /\ currentHomeAddress (data (handleInputChange parseFloat name value st))
     = currentHomeAddress (data st)
  /\ newHomeAddress (data (handleInputChange parseFloat name value st))
     = newHomeAddress (data st)
  /\ newHomeDetails (data (handleInputChange parseFloat name value st))
     = newHomeDetails (data st)
  /\ results (handleInputChange parseFloat name value st) = results st
  /\ error (handleInputChange parseFloat name value st) = error st.
Proof.
  intros Hin.
  assert (Hbranch : (name =? "newHomeAddress") || (name =? "currentHomeAddress") = false).
  { unfold numericFields in Hin.
    repeat (destruct Hin as [<- | Hin]; [reflexivity|]). destruct Hin. }
  unfold handleInputChange. rewrite Hbranch. cbn [data setData results error].
  split; [apply numericField_assignNumber_same; exact Hin|].
  split; [apply sanitised_not_nan|].
  split; [intros other Hne; apply numericField_assignNumber_other; exact Hne|].
  repeat split.
Qed.

(** X2. Whatever the user types and whatever the services answer, no
    numeric field of [data] is ever NaN: it holds in the initial state and
    every handler keeps it. *)
Theorem no_nan_in_reachable_data (st : AppState float) (name : string) (x : float) :
  reachable parseFloat JSON_parse pow getFinancialAnalysis st ->
  numericField name (data st) = Some x ->
  is_nan x = false.
Proof.
  intros Hreach Hx.
  destruct (reachable_cleanData parseFloat JSON_parse pow getFinancialAnalysis st Hreach)
    as [Hnum _].
  exact (Hnum name x Hx).
Qed.

(** X3. In a state the component can get into, [calculateFinancials]
    returns results only when the home value, the new price, the new rate
    and the income are all greater than 0 (a NaN cannot slip through the
    four [<= 0] tests, because none is ever stored). *)
Theorem results_need_positive_inputs (st : AppState float) (r : CalculationResults float) :
  reachable parseFloat JSON_parse pow getFinancialAnalysis st ->
  fst (calculateFinancials (N := js) st) = Some r ->
  (0 <? st.(data).(currentHomeValue))%float = true
  /\ (0 <? st.(data).(newHomePrice))%float = true
  /\ (0 <? st.(data).(newInterestRate))%float = true
  /\ (0 <? st.(data).(monthlyIncome))%float = true.
Proof.
  intros Hreach Hr.
  destruct (reachable_cleanData parseFloat JSON_parse pow getFinancialAnalysis st Hreach)
    as [Hnum _].
  destruct (passesValidation (N := js) (data st)) eqn:Hv.
  - apply passesValidation_true in Hv. destruct Hv as (H1 & H2 & H3 & H4).
    split; [|split; [|split]]; apply float_not_nan_not_le_0.
    + exact (Hnum "currentHomeValue" _ eq_refl).
    + exact H1.
    + exact (Hnum "newHomePrice" _ eq_refl).
    + exact H2.
    + exact (Hnum "newInterestRate" _ eq_refl).
    + exact H3.
    + exact (Hnum "monthlyIncome" _ eq_refl).
    + exact H4.
  - destruct (calculateFinancials_invalid st Hv) as [Hnone _].
    rewrite Hnone in Hr. discriminate.
Qed.

End HandlerTheorems.

Section ServiceTheorems.
Local Open Scope string_scope.
Variable JSON_parse : ustring -> option ParsedDetails.
Variable pow : float -> float -> float.
Local Notation "'js'" := (js_number pow).

(** X4. [getEstimatedHomeValue] reads nothing but the digits of the
    reply: for an address that is not empty the outcome is decided by the
    digits of the text, taken together as one decimal number, whatever
    stands between or around them (signs, separators, a decimal point,
    words).  No digit, or digits that make 0, reject with the standard
    message; otherwise the promise fulfils with that number. *)
Theorem estimate_reads_only_digits (address : string) (text : ustring) :
  isEmpty address = false ->
  getEstimatedHomeValue address (ResponseText text) =
    let digits := filter isDigit text in
    match digits with
    | [] =>
        Rejected (ErrorObject
          "Could not estimate a value for this address. Please enter a value manually.")
    | _ :: _ =>
        if (numberOfZ (decimalValue digits) false =? 0)%float then
          Rejected (ErrorObject
            "Could not estimate a value for this address. Please enter a value manually.")
        else Fulfilled (numberOfZ (decimalValue digits) false)
    end.
Proof. exact (getEstimatedHomeValue_digits address text). Qed.

(** X5. A value [getEstimatedHomeValue] fulfils with is never NaN, never
    0 and never negative: it is greater than 0. *)
Theorem estimate_is_positive (address : string) (response : GenerateContent) (v : float) :
  getEstimatedHomeValue address response = Fulfilled v ->
  is_nan v = false /\ (0 <? v)%float = true /\ (v <=? 0)%float = false.
Proof.
  intros Hv.
  destruct (getEstimatedHomeValue_outcomes address response) as [Hok _].
  destruct (Hok v Hv) as (_ & Hnan & Hpos).
  split; [exact Hnan|]. split; [exact Hpos|].
  revert Hpos. rewrite FloatAxioms.ltb_spec, FloatAxioms.leb_spec.
  change (Prim2SF 0) with (S754_zero false).
  destruct (Prim2SF v) as [s | [ | ] | | [ | ] m e]; unfold SFltb, SFleb; simpl;
    try discriminate; reflexivity.
Qed.

(** X6. [handleGetValue] does nothing at all while the address is empty.
    With an address, a failed estimate leaves the data, the results and
    the analysis as they were: the state only gets the message of the
    service in [error] and the loading flag back to false (the
    unknown-error message never shows). *)
Theorem failed_estimate_keeps_data (response : GenerateContent) (st : AppState float) :
  (isEmpty st.(data).(currentHomeAddress) = true -> handleGetValue response st = st)
  /\ (isEmpty st.(data).(currentHomeAddress) = false ->
      forall reason,
        getEstimatedHomeValue st.(data).(currentHomeAddress) response = Rejected reason ->
        handleGetValue response st =
          setIsValueLoading false
            (setError
               "Could not estimate a value for this address. Please enter a value manually."
               st)).
Proof.
  split.
  - intros Haddr. unfold handleGetValue. rewrite Haddr. reflexivity.
  - intros Haddr reason Hr. unfold handleGetValue. rewrite Haddr, Hr.
    destruct (getEstimatedHomeValue_outcomes (currentHomeAddress (data st)) response)
      as [_ Hbad].
    destruct (Hbad reason Hr) as [-> | ->]; [|reflexivity].
    unfold getEstimatedHomeValue in Hr. rewrite Haddr in Hr.
    destruct response as [text | ]; [|discriminate].
    destruct (is_nan _ || _); discriminate.
Qed.

(** X7. After a successful estimate the home value is the number
    obtained, it passes the first validation rule, no other numeric field,
    nor the details or the results, has changed, the error is cleared and
    the loading flag is back to false. *)
Theorem estimate_passes_first_rule (response : GenerateContent) (st : AppState float)
    (v : float) :
  isEmpty st.(data).(currentHomeAddress) = false ->
  getEstimatedHomeValue st.(data).(currentHomeAddress) response = Fulfilled v ->
  currentHomeValue (data (handleGetValue response st)) = v
  /\ homeValueInvalid (N := js) (data (handleGetValue response st)) = false
  /\ (forall other, other <> "currentHomeValue" ->
        numericField other (data (handleGetValue response st))
        = numericField other (data st))
  /\ newHomeDetails (data (handleGetValue response st)) = newHomeDetails (data st)
  /\ results (handleGetValue response st) = results st
  /\ error (handleGetValue response st) = ""
  /\ isValueLoading (handleGetValue response st) = false.
Proof.
  intros Haddr Hv. unfold handleGetValue. rewrite Haddr, Hv.
  cbn [data setData setError setIsValueLoading results error isValueLoading].
  split; [reflexivity|].
  split.
  { destruct (getEstimatedHomeValue_outcomes (currentHomeAddress (data st)) response)
      as [Hok _].
    destruct (Hok v Hv) as (_ & Hnan & Hpos).
    unfold homeValueInvalid. cbn.
    change (float_lit 0) with 0%float.
    revert Hpos. rewrite FloatAxioms.ltb_spec, FloatAxioms.leb_spec.
    change (Prim2SF 0) with (S754_zero false).
    destruct (Prim2SF v) as [s | [ | ] | | [ | ] m e]; unfold SFltb, SFleb; simpl;
      try discriminate; reflexivity. }
  split.
  { intros other Hne. apply numericField_assignNumber_other. exact Hne. }
  repeat split.
Qed.

(** X8. [handleGetNewHomeDetails] does nothing while the new address is
    empty.  With an address, a failed request (no reply, a reply that does
    not parse, or a missing, zero or empty field) leaves the data, with
    any details fetched earlier, as it was: the state only gets the
    message in [error] and the loading flag back to false. *)
Theorem failed_details_keep_data (response : GenerateContent) (st : AppState float) :
  (isEmpty st.(data).(newHomeAddress) = true ->
     handleGetNewHomeDetails JSON_parse response st = st)
  /\ (isEmpty st.(data).(newHomeAddress) = false ->
      forall reason,
        getNewHomeDetails JSON_parse st.(data).(newHomeAddress)
          st.(data).(newHomePrice) response = Rejected reason ->
        handleGetNewHomeDetails JSON_parse response st =
          setIsHomeDetailsLoading false
            (setError
               "Could not retrieve details for the new address. Please check the address and try again."
               st)).
Proof.
  split.
  - intros Haddr. unfold handleGetNewHomeDetails. rewrite Haddr. reflexivity.
  - intros Haddr reason Hr. unfold handleGetNewHomeDetails. rewrite Haddr, Hr.
    destruct (getNewHomeDetails_outcomes JSON_parse (newHomeAddress (data st))
                (newHomePrice (data st)) response) as [_ Hbad].
    destruct (Hbad reason Hr) as [-> | ->]; [|reflexivity].
    exfalso. revert Hr. unfold getNewHomeDetails. rewrite Haddr.
    destruct response as [raw | ]; [|discriminate].
    destruct (JSON_parse (trim raw)) as [parsed | ]; [|discriminate].
    destruct (parsedTaxes parsed); [|discriminate].
    destruct (parsedInsurance parsed); [|discriminate].
    destruct (parsedTrends parsed); [|discriminate].
    destruct (_ || _); discriminate.
Qed.


End ServiceTheorems.

Section DownPayment.
Variable pow : float -> float -> float.
Local Notation "'js'" := (js_number pow).
Local Open Scope float_scope.

Lemma float_pos_not_neg (x : float) : (0 <? x) = true -> (x <? 0) = false /\ (0 <=? x) = true.
Proof.
  rewrite !FloatAxioms.ltb_spec, FloatAxioms.leb_spec.
  change (Prim2SF 0) with (S754_zero false).
  destruct (Prim2SF x) as [s | [ | ] | | [ | ] m e]; unfold SFltb, SFleb; simpl;
    try discriminate; intros _; split; reflexivity.
Qed.

Lemma js_max_0_cases (x : float) :
  js_max 0 x = nan /\ is_nan x = true
  \/ js_max 0 x = x /\ (0 <? x) = true
  \/ js_max 0 x = 0 /\ is_nan x = false /\ (0 <? x) = false.
Proof.
  unfold js_max. change (is_nan 0) with false. cbn [orb].
  destruct (is_nan x) eqn:Hn; [left; split; reflexivity|]. right.
  change (classify 0) with PZero. cbv iota.
  destruct (0 <? x) eqn:Hp; [left|right]; repeat split.
Qed.

(** X10. The down payment, [Math.max(0, proceedsFromSale)], is never
    negative; it is >= 0 unless the proceeds are NaN, and it is the
    proceeds themselves when they are positive. *)
Theorem down_payment_never_negative (d : FinancialData float) :
  (Calc.downPayment (N := js) d <? 0) = false
  /\ (is_nan (Calc.proceedsFromSale (N := js) d) = false ->
      (0 <=? Calc.downPayment (N := js) d) = true)
  /\ ((0 <? Calc.proceedsFromSale (N := js) d) = true ->
      Calc.downPayment (N := js) d = Calc.proceedsFromSale (N := js) d).
Proof.
  unfold Calc.downPayment. cbn [Math_max js_number lit].
  change (float_lit 0) with 0.
  destruct (js_max_0_cases (Calc.proceedsFromSale (N := js) d))
    as [[-> Hn] | [[-> Hp] | (-> & Hn & Hp)]].
  - split; [reflexivity|]. split; intros H.
    + rewrite Hn in H. discriminate.
    + exfalso. revert H Hn. unfold is_nan.
      rewrite FloatAxioms.ltb_spec, FloatAxioms.eqb_spec.
      change (Prim2SF 0) with (S754_zero false).
      destruct (Prim2SF _) as [s | [ | ] | | [ | ] m e]; unfold SFltb, SFeqb; simpl;
        try discriminate.
      rewrite Z.compare_refl, Pos.compare_cont_refl. discriminate.
  - destruct (float_pos_not_neg _ Hp) as [H1 H2].
    split; [exact H1|]. split; [intros _; exact H2|intros _; reflexivity].
  - split; [reflexivity|]. split; [intros _; reflexivity|]. intros H. congruence.
Qed.
End DownPayment.

Section ColoursExactly.
Local Open Scope Q_scope.



End ColoursExactly.

Section Markdown.

Lemma block_isBlockPart line trimmedLine : isBlockPart (block line trimmedLine) = true.
Proof.
  unfold block.
  destruct (includes line _); [reflexivity|].
  destruct (startsWithMarker line); [reflexivity|].
  destruct (startsWith trimmedLine _); [reflexivity|].
  destruct (includes line _); reflexivity.
Qed.

Lemma item_isItemPart content :
  isItemPart (units "<li>" ++ content ++ units "</li>") = true.
Proof. reflexivity. Qed.

Lemma renderLines_structure (lines : list ustring) :
  blocksAndLists (renderLines false lines)
  /\ exists items rest,
       renderLines true lines = items ++ units "</ul>" :: rest
       /\ Forall (fun p => isItemPart p = true) items
       /\ blocksAndLists rest.
Proof.
  induction lines as [ | line lines [IHout (items & rest & IHin & Hitems & Hrest)]].
  - split; [constructor|]. exists [], []. repeat split; constructor.
  - cbn [renderLines].
    destruct (startsWith (trim line) (units "- ")).
    + split.
      * cbn [app]. rewrite IHin. apply bl_list; [|exact Hrest].
        constructor; [apply item_isItemPart|exact Hitems].
      * cbn [app]. rewrite IHin.
        exists ((units "<li>" ++ substring 2 (trim line) ++ units "</li>") :: items), rest.
        split; [reflexivity|]. split; [|exact Hrest].
        constructor; [apply item_isItemPart|exact Hitems].
    + destruct (trim line) as [ | c t] eqn:Ht.
      * split; [exact IHout|].
        exists [], (renderLines false lines). repeat split; [constructor|exact IHout].
      * assert (Hb : blocksAndLists (block line (c :: t) :: renderLines false lines)).
        { apply bl_block; [apply block_isBlockPart|exact IHout]. }
        split; [exact Hb|].
        exists [], (block line (c :: t) :: renderLines false lines).
        repeat split; [constructor|exact Hb].
Qed.

(** X12. Whatever the markdown, the parts [simpleMarkdownToHtml] joins
    form a sequence of blocks (headings, paragraphs) and lists, where
    every list is opened by one [<ul>], holds at least one [<li>] item and
    is closed by one [</ul>]: no list is left open, nested or empty, and
    no item stands outside a list. *)
Theorem html_parts_structure (markdown : ustring) : blocksAndLists (htmlParts markdown).
Proof. unfold htmlParts. apply renderLines_structure. Qed.

Lemma includes_tail s c needle : includes (c :: s) needle = false -> includes s needle = false.
Proof. cbn [includes]. intros H. apply orb_false_iff in H. tauto. Qed.

Lemma includes_head s needle : includes s needle = false -> startsWith s needle = false.
Proof. destruct s; cbn [includes]; intros H; apply orb_false_iff in H; tauto. Qed.

Lemma replaceBoldFrom_plain fuel s :
  includes s [42; 42]%N = false -> replaceBoldFrom fuel s = s.
Proof.
  revert s. induction fuel as [ | fuel IH]; intros s Hs.
  - destruct s; reflexivity.
  - destruct s as [ | c rest]; [reflexivity|].
    cbn [replaceBoldFrom]. rewrite (includes_head _ _ Hs).
    rewrite (IH rest (includes_tail _ _ _ Hs)). reflexivity.
Qed.

Lemma closeBold_shorter s captured after :
  closeBold s = Some (captured, after) -> (length after <= length s)%nat.
Proof.
  revert captured after. induction s as [ | c rest IH]; intros captured after; [discriminate|].
  cbn [closeBold].
  destruct (startsWith (c :: rest) [42; 42]%N).
  - intros H. injection H as _ <-. destruct rest; simpl; lia.
  - destruct (isLineTerminator c); [discriminate|].
    destruct (closeBold rest) as [[cap aft] | ]; [|discriminate].
    intros H. injection H as _ <-. specialize (IH cap aft eq_refl). simpl. lia.
Qed.

(** The fuel given to the bold pass is enough: more changes nothing. *)
Lemma replaceBoldFrom_enough (n m : nat) (s : ustring) :
  (length s <= n)%nat -> (length s <= m)%nat ->
  replaceBoldFrom n s = replaceBoldFrom m s.
Proof.
  revert m s. induction n as [ | n IH]; intros m s Hn Hm.
  - destruct s; [destruct m; reflexivity|simpl in Hn; lia].
  - destruct s as [ | c rest]; [destruct m; reflexivity|].
    destruct m as [ | m]; [simpl in Hm; lia|].
    cbn [replaceBoldFrom]. simpl in Hn, Hm.
    destruct (startsWith (c :: rest) [42; 42]%N).
    + destruct (closeBold (skipn 2 (c :: rest))) as [[captured after] | ] eqn:E.
      * apply closeBold_shorter in E.
        assert (Hs : (length (skipn 2 (c :: rest)) <= length rest)%nat)
          by (destruct rest; simpl; lia).
        rewrite (IH m after) by lia. reflexivity.
      * rewrite (IH m rest) by lia. reflexivity.
    + rewrite (IH m rest) by lia. reflexivity.
Qed.

(** X14. The bold pass leaves a text without two adjacent asterisks as
    it is. *)
Theorem replaceBold_plain (s : ustring) :
  includes s [42; 42]%N = false -> replaceBold s = s.
Proof. apply replaceBoldFrom_plain. Qed.

Lemma whitespace_no_stars s :
  Forall (fun c => isWhiteSpace c = true) s -> includes s [42; 42]%N = false.
Proof.
  induction 1 as [ | c s Hc _ IH]; [reflexivity|].
  cbn [includes startsWith]. rewrite IH.
  destruct (c =? 42)%N eqn:E; [|reflexivity].
  apply N.eqb_eq in E. subst c. discriminate Hc.
Qed.

Lemma trimStart_whitespace s :
  Forall (fun c => isWhiteSpace c = true) s -> trimStart s = [].
Proof. induction 1 as [ | c s Hc _ IH]; simpl; [reflexivity|]. rewrite Hc. exact IH. Qed.

(** X13. Markdown made of white space only renders as the empty
    string. *)
Theorem blank_markdown_renders_nothing (markdown : ustring) :
  Forall (fun c => isWhiteSpace c = true) markdown ->
  simpleMarkdownToHtml markdown = [].
Proof.
  intros Hw. unfold simpleMarkdownToHtml.
  destruct markdown as [ | c rest] eqn:E; [reflexivity|]. rewrite <- E in *.
  unfold htmlParts, replaceBold.
  rewrite (replaceBoldFrom_plain _ _ (whitespace_no_stars _ Hw)).
  unfold trim. rewrite (trimStart_whitespace _ Hw). reflexivity.
Qed.

End Markdown.

Section RegexCorrect.

Lemma seq_inv r1 r2 s :
  language (Seq r1 r2) s ->
  exists s1 s2, s = s1 ++ s2 /\ language r1 s1 /\ language r2 s2.
Proof. intros H. inversion H; subst. eauto. Qed.

Lemma alt_inv r1 r2 s : language (Alt r1 r2) s -> language r1 s \/ language r2 s.
Proof. intros H. inversion H; subst; tauto. Qed.

Lemma class_inv p s : language (Class p) s -> exists c, s = [c] /\ p c = true.
Proof. intros H. inversion H; subst. eauto. Qed.

Lemma empty_inv s : language Empty s -> s = [].
Proof. intros H. inversion H. reflexivity. Qed.

Lemma never_inv s : ~ language Never s.
Proof. intros H. inversion H. Qed.

Lemma nullable_spec r : nullable r = true <-> language r [].
Proof.
  induction r as [ | | p | r1 IH1 r2 IH2 | r1 IH1 r2 IH2 | r IH]; simpl.
  - split; [discriminate|]. intros H. destruct (never_inv _ H).
  - split; [constructor|reflexivity].
  - split; [discriminate|]. intros H.
    apply class_inv in H. destruct H as (c & Hc & _). discriminate.
  - rewrite andb_true_iff, IH1, IH2. split.
    + intros [H1 H2]. change (@nil N) with (@nil N ++ []). constructor; assumption.
    + intros H. apply seq_inv in H. destruct H as (s1 & s2 & Heq & H1 & H2).
      symmetry in Heq. apply app_eq_nil in Heq. destruct Heq; subst. tauto.
  - rewrite orb_true_iff, IH1, IH2. split.
    + intros [H | H]; [apply lang_alt_l|apply lang_alt_r]; exact H.
    + apply alt_inv.
  - split; [constructor|reflexivity].
Qed.

Lemma star_cons_inv r c s :
  language (Star r) (c :: s) ->
  exists s1 s2, s = s1 ++ s2 /\ language r (c :: s1) /\ language (Star r) s2.
Proof.
  intros H. remember (Star r) as r' eqn:Er. remember (c :: s) as cs eqn:Es.
  revert r c s Er Es.
  induction H as [ | p0 c0 Hp | | | | r0 | r0 s1 s2 H1 _ H2 IH2];
    intros rr cc ss Er Es; try discriminate.
  injection Er as ->.
  destruct s1 as [ | c1 s1].
  - simpl in Es. exact (IH2 rr cc ss eq_refl Es).
  - simpl in Es. injection Es as Hc Hs. subst c1 ss.
    exists s1, s2. repeat split; assumption.
Qed.

Lemma derivative_spec r c s : language (derivative c r) s <-> language r (c :: s).
Proof.
  revert s. induction r as [ | | p | r1 IH1 r2 IH2 | r1 IH1 r2 IH2 | r IH];
    intros s; simpl.
  - split; intros H; destruct (never_inv _ H).
  - split; intros H; [destruct (never_inv _ H)|]. apply empty_inv in H. discriminate.
  - destruct (p c) eqn:Hp; split; intros H.
    + apply empty_inv in H. subst. constructor. exact Hp.
    + apply class_inv in H. destruct H as (c' & Heq & _).
      injection Heq as Hc' Hs. subst s. constructor.
    + destruct (never_inv _ H).
    + apply class_inv in H. destruct H as (c' & Heq & Hc).
      injection Heq as Hc' Hs. subst c'. congruence.
  - assert (Hfwd : forall t, language (Seq (derivative c r1) r2) t ->
                             language (Seq r1 r2) (c :: t)).
    { intros t H. apply seq_inv in H. destruct H as (s1 & s2 & -> & Ha & Hb).
      apply IH1 in Ha. change (c :: s1 ++ s2) with ((c :: s1) ++ s2).
      constructor; assumption. }
    assert (Hbwd : forall t, language (Seq r1 r2) (c :: t) ->
                     language (Seq (derivative c r1) r2) t
                     \/ (language r1 [] /\ language r2 (c :: t))).
    { intros t H. apply seq_inv in H. destruct H as (s1 & s2 & Heq & Ha & Hb).
      destruct s1 as [ | c1 s1].
      - simpl in Heq. subst s2. right. split; assumption.
      - simpl in Heq. injection Heq as Hc1 Ht. subst c1 t. left.
        constructor; [apply IH1; exact Ha|exact Hb]. }
    destruct (nullable r1) eqn:Hn.
    + split; intros H.
      * apply alt_inv in H. destruct H as [H | H]; [exact (Hfwd _ H)|].
        apply IH2 in H. change (c :: s) with ([] ++ c :: s).
        constructor; [apply nullable_spec; exact Hn|exact H].
      * destruct (Hbwd _ H) as [H' | [_ H']];
          [apply lang_alt_l; exact H'|apply lang_alt_r; apply IH2; exact H'].
    + split; intros H; [exact (Hfwd _ H)|].
      destruct (Hbwd _ H) as [H' | [Hnil _]]; [exact H'|].
      apply nullable_spec in Hnil. congruence.
  - split; intros H.
    + apply alt_inv in H.
      destruct H as [H | H]; [apply lang_alt_l; apply IH1|apply lang_alt_r; apply IH2];
        exact H.
    + apply alt_inv in H.
      destruct H as [H | H]; [apply lang_alt_l; apply IH1|apply lang_alt_r; apply IH2];
        exact H.
  - split; intros H.
    + apply seq_inv in H. destruct H as (s1 & s2 & -> & Ha & Hb).
      apply IH in Ha. change (c :: s1 ++ s2) with ((c :: s1) ++ s2).
      constructor; assumption.
    + apply star_cons_inv in H. destruct H as (s1 & s2 & -> & Ha & Hb).
      constructor; [apply IH; exact Ha|exact Hb].
Qed.

(** The matcher decides the language. *)
Lemma matches_spec r s : matches r s = true <-> language r s.
Proof.
  revert r. induction s as [ | c s IH]; intros r; simpl.
  - apply nullable_spec.
  - rewrite IH. apply derivative_spec.
Qed.

End RegexCorrect.

Section RegexFacts.

Lemma star_class_spec p s :
  language (Star (Class p)) s <-> Forall (fun c => p c = true) s.
Proof.
  split.
  - revert p. induction s as [ | c s IH]; intros p H; [constructor|].
    apply star_cons_inv in H. destruct H as (s1 & s2 & -> & Ha & Hb).
    apply class_inv in Ha. destruct Ha as (c' & Heq & Hc).
    injection Heq as Hc' Hs. subst c' s1. constructor; [exact Hc|].
    apply IH. exact Hb.
  - induction 1 as [ | c s Hc _ IH]; [constructor|].
    change (c :: s) with ([c] ++ s). constructor; [constructor; exact Hc|exact IH].
Qed.

Lemma any_star s : language (Star (Class (fun _ => true))) s.
Proof. apply star_class_spec. apply Forall_forall. reflexivity. Qed.

Lemma plus_class_spec p s :
  language (Plus (Class p)) s <-> s <> [] /\ Forall (fun c => p c = true) s.
Proof.
  unfold Plus. split.
  - intros H. apply seq_inv in H. destruct H as (s1 & s2 & -> & Ha & Hb).
    apply class_inv in Ha. destruct Ha as (c & -> & Hc).
    apply star_class_spec in Hb. split; [discriminate|].
    constructor; assumption.
  - intros [Hne Hall]. destruct s as [ | c s]; [congruence|].
    inversion Hall; subst.
    change (c :: s) with ([c] ++ s).
    constructor; [constructor; assumption|apply star_class_spec; assumption].
Qed.

Lemma atLeast_class_spec n p s :
  language (AtLeast n (Class p)) s <->
  (n <= length s)%nat /\ Forall (fun c => p c = true) s.
Proof.
  revert s. induction n as [ | n IH]; intros s; cbn [AtLeast].
  - rewrite star_class_spec. split; [intros H; split; [lia|exact H]|tauto].
  - split.
    + intros H. apply seq_inv in H. destruct H as (s1 & s2 & -> & Ha & Hb).
      apply class_inv in Ha. destruct Ha as (c & -> & Hc).
      apply IH in Hb. destruct Hb as [Hlen Hall].
      split; [simpl; lia|constructor; assumption].
    + intros [Hlen Hall]. destruct s as [ | c s]; [simpl in Hlen; lia|].
      inversion Hall; subst.
      change (c :: s) with ([c] ++ s).
      constructor; [constructor; assumption|].
      apply IH. split; [simpl in Hlen; lia|assumption].
Qed.

Lemma char_inv c s : language (Char c) s -> s = [c].
Proof.
  intros H. apply class_inv in H. destruct H as (c' & -> & Hc).
  apply N.eqb_eq in Hc. subst. reflexivity.
Qed.

Lemma testAnywhere_spec r s :
  testAnywhere r s = true <->
  exists before middle after, s = before ++ middle ++ after /\ language r middle.
Proof.
  unfold testAnywhere. rewrite matches_spec. split.
  - intros H. apply seq_inv in H. destruct H as (s1 & s' & -> & _ & H).
    apply seq_inv in H. destruct H as (s2 & s3 & -> & H & _).
    exists s1, s2, s3. split; [reflexivity|exact H].
  - intros (s1 & s2 & s3 & -> & H).
    constructor; [apply any_star|]. constructor; [exact H|apply any_star].
Qed.

End RegexFacts.

Section Trim.

Lemma trimStart_nil_iff s :
  trimStart s = [] <-> Forall (fun c => isWhiteSpace c = true) s.
Proof.
  split.
  - induction s as [ | c s IH]; [constructor|]. simpl.
    destruct (isWhiteSpace c) eqn:Hc; [|discriminate].
    intros H. constructor; [exact Hc|exact (IH H)].
  - apply trimStart_whitespace.
Qed.

Lemma trimStart_subset s c : In c (trimStart s) -> In c s.
Proof.
  induction s as [ | a s IH]; simpl; [tauto|].
  destruct (isWhiteSpace a); [intros H; right; exact (IH H)|exact (fun H => H)].
Qed.

Lemma trimStart_keeps s c :
  In c s -> isWhiteSpace c = false -> In c (trimStart s).
Proof.
  induction s as [ | a s IH]; simpl; [tauto|].
  intros [-> | Hin] Hc.
  - rewrite Hc. left. reflexivity.
  - destruct (isWhiteSpace a); [exact (IH Hin Hc)|right; exact Hin].
Qed.

(** A string is blank exactly when all of it is white space. *)
Lemma trim_nil_iff s : trim s = [] <-> Forall (fun c => isWhiteSpace c = true) s.
Proof.
  unfold trim, trimEnd. split.
  - intros H. apply Forall_forall. intros c Hc.
    destruct (isWhiteSpace c) eqn:Hw; [reflexivity|].
    exfalso.
    assert (H1 : In c (trimStart s)) by (apply trimStart_keeps; assumption).
    assert (H2 : In c (trimStart (rev (trimStart s)))).
    { apply trimStart_keeps; [apply in_rev in H1; exact H1|exact Hw]. }
    apply in_rev in H2. rewrite H in H2. destruct H2.
  - intros H. rewrite (trimStart_whitespace _ H). reflexivity.
Qed.

End Trim.

Section FormProperties.
Import ConsultantForm.

Lemma isBlank_spec s : isBlank s = true <-> Forall (fun c => isWhiteSpace c = true) s.
Proof.
  unfold isBlank. rewrite <- trim_nil_iff.
  destruct (trim s); split; (reflexivity || discriminate).
Qed.

Lemma isBlank_no_digits s : isBlank s = true -> filter isDigit s = [].
Proof.
  unfold isBlank. intros H. rewrite <- filter_digits_trim.
  destruct (trim s); [reflexivity|discriminate].
Qed.

Lemma phone_test_spec s :
  testWhole phonePattern (filter isDigit s) = true
  <-> (10 <= length (filter isDigit s))%nat.
Proof.
  unfold testWhole, phonePattern. rewrite matches_spec, atLeast_class_spec.
  split; [tauto|]. intros H. split; [exact H|apply digits_filter].
Qed.

Lemma nonspace_forall s :
  Forall (fun c => negb (isWhiteSpace c) = true) s
  <-> Forall (fun c => isWhiteSpace c = false) s.
Proof.
  split; intros H; eapply Forall_impl; [|exact H| |exact H]; cbv beta;
    intros c; destruct (isWhiteSpace c); simpl; congruence.
Qed.

Lemma email_test_spec s : testAnywhere emailPattern s = true <-> emailShape s.
Proof.
  rewrite testAnywhere_spec. unfold emailPattern, emailShape, NonSpace. split.
  - intros (before & middle & after & -> & H).
    apply seq_inv in H. destruct H as (local & m1 & -> & Hl & H).
    apply seq_inv in H. destruct H as (at_ & m2 & -> & Hat & H).
    apply seq_inv in H. destruct H as (domain & m3 & -> & Hd & H).
    apply seq_inv in H. destruct H as (dot & tld & -> & Hdot & Ht).
    apply char_inv in Hat, Hdot. subst at_ dot.
    apply plus_class_spec in Hl, Hd, Ht.
    destruct Hl as [Hl1 Hl2], Hd as [Hd1 Hd2], Ht as [Ht1 Ht2].
    exists before, local, domain, tld, after.
    split; [rewrite <- !app_assoc; reflexivity|].
    repeat split; try assumption.
    apply nonspace_forall. rewrite !Forall_app. tauto.
  - intros (before & local & domain & tld & after & -> & Hl & Hd & Ht & Hall).
    apply nonspace_forall in Hall. rewrite !Forall_app in Hall.
    destruct Hall as (Hl2 & Hd2 & Ht2).
    exists before, (local ++ [64%N] ++ domain ++ [46%N] ++ tld), after.
    split; [rewrite <- !app_assoc; reflexivity|].
    constructor; [apply plus_class_spec; tauto|].
    constructor; [constructor; apply N.eqb_refl|].
    constructor; [apply plus_class_spec; tauto|].
    constructor; [constructor; apply N.eqb_refl|].
    apply plus_class_spec; tauto.
Qed.

Lemma emailShape_not_blank s : emailShape s -> isBlank s = false.
Proof.
  intros (before & local & domain & tld & after & -> & Hl & _ & _ & Hall).
  destruct (isBlank _) eqn:Hb; [|reflexivity]. exfalso.
  apply isBlank_spec in Hb. rewrite !Forall_app in Hb, Hall.
  destruct Hb as (_ & Hw & _). destruct Hall as (Hn & _).
  destruct local as [ | c local]; [congruence|].
  inversion Hw; inversion Hn; subst. congruence.
Qed.

(** X15. [validateForm] answers true exactly when it sets no error
    message, and it changes nothing but [errors]. *)
Theorem form_valid_iff_no_errors (st : State) :
  (fst (validateForm st) = true <->
   Errors.name (errors (snd (validateForm st))) = ""%string
   /\ Errors.email (errors (snd (validateForm st))) = ""%string
   /\ Errors.phone (errors (snd (validateForm st))) = ""%string)
  /\ formData (snd (validateForm st)) = formData st
  /\ isSubmitted (snd (validateForm st)) = isSubmitted st
  /\ submitError (snd (validateForm st)) = submitError st.
Proof.
  unfold validateForm.
  destruct (isBlank (name (formData st)));
    destruct (isBlank (email (formData st)));
    destruct (testAnywhere emailPattern (email (formData st)));
    destruct (isBlank (phone (formData st)));
    destruct (testWhole phonePattern (filter isDigit (phone (formData st))));
    simpl; (split; [split; [intros H; try discriminate H; repeat split
                           |intros (H1 & H2 & H3); try discriminate; reflexivity]
                   |repeat split]).
Qed.

(** X16. The phone number is accepted exactly when it holds at least ten
    digits, whatever else it holds. *)
Theorem phone_needs_ten_digits (st : State) :
  Errors.phone (errors (snd (validateForm st))) = ""%string
  <-> (10 <= length (filter isDigit (phone (formData st))))%nat.
Proof.
  rewrite <- phone_test_spec.
  unfold validateForm.
  destruct (isBlank (phone (formData st))) eqn:Hb.
  - rewrite (isBlank_no_digits _ Hb).
    destruct (isBlank (name (formData st)));
      destruct (isBlank (email (formData st)));
      destruct (testAnywhere emailPattern (email (formData st)));
      simpl; split; discriminate.
  - destruct (testWhole phonePattern (filter isDigit (phone (formData st))));
      destruct (isBlank (name (formData st)));
      destruct (isBlank (email (formData st)));
      destruct (testAnywhere emailPattern (email (formData st)));
      simpl; split; intros H; (reflexivity || discriminate H).
Qed.

(** X17. The email is accepted exactly when somewhere in it a run of
    characters other than white space is followed by [@], another such
    run, a dot and a third such run. *)
Theorem email_needs_its_shape (st : State) :
  Errors.email (errors (snd (validateForm st))) = ""%string
  <-> exists before local domain tld after,
        email (formData st)
        = before ++ local ++ [64%N] ++ domain ++ [46%N] ++ tld ++ after
        /\ local <> [] /\ domain <> [] /\ tld <> []
        /\ Forall (fun c => isWhiteSpace c = false) (local ++ domain ++ tld).
Proof.
  change (Errors.email (errors (snd (validateForm st))) = ""%string
          <-> emailShape (email (formData st))).
  unfold validateForm.
  destruct (testAnywhere emailPattern (email (formData st))) eqn:Ht.
  - pose proof (proj1 (email_test_spec _) Ht) as Hshape.
    rewrite (emailShape_not_blank _ Hshape).
    destruct (isBlank (name (formData st)));
      destruct (isBlank (phone (formData st)));
      destruct (testWhole phonePattern (filter isDigit (phone (formData st))));
      simpl; split; intros _; (reflexivity || exact Hshape).
  - assert (Hno : ~ emailShape (email (formData st))).
    { intros Hs. apply email_test_spec in Hs. congruence. }
    destruct (isBlank (email (formData st)));
      destruct (isBlank (name (formData st)));
      destruct (isBlank (phone (formData st)));
      destruct (testWhole phonePattern (filter isDigit (phone (formData st))));
      simpl; split; intros H; (discriminate H || destruct (Hno H)).
Qed.

End FormProperties.

Section SubmitProperties.
Import ConsultantForm.

Lemma validateForm_ignores_submitError e st :
  validateForm (setSubmitError e st)
  = (fst (validateForm st), setSubmitError e (snd (validateForm st))).
Proof.
  unfold validateForm. cbn [formData setSubmitError].
  destruct (isBlank (name (formData st)));
    destruct (isBlank (email (formData st)));
    destruct (testAnywhere emailPattern (email (formData st)));
    destruct (isBlank (phone (formData st)));
    destruct (testWhole phonePattern (filter isDigit (phone (formData st))));
    reflexivity.
Qed.

Lemma validateForm_frame st :
  formData (snd (validateForm st)) = formData st
  /\ isSubmitted (snd (validateForm st)) = isSubmitted st
  /\ isSubmitting (snd (validateForm st)) = isSubmitting st
  /\ submitError (snd (validateForm st)) = submitError st.
Proof.
  unfold validateForm.
  destruct (isBlank (name (formData st)));
    destruct (isBlank (email (formData st)));
    destruct (testAnywhere emailPattern (email (formData st)));
    destruct (isBlank (phone (formData st)));
    destruct (testWhole phonePattern (filter isDigit (phone (formData st))));
    repeat split.
Qed.

Lemma includes_needs_head s c needle : includes s (c :: needle) = true -> In c s.
Proof.
  induction s as [ | a s IH]; cbn [includes startsWith]; [discriminate|].
  intros H. apply orb_true_iff in H. destruct H as [H | H].
  - apply andb_true_iff in H. destruct H as [H _]. apply N.eqb_eq in H.
    left. exact H.
  - right. exact (IH H).
Qed.

Lemma digits_of_uint u :
  Forall (fun c => isDigit c = true) (units (NilEmpty.string_of_uint u)).
Proof.
  induction u; cbn; constructor; (reflexivity || assumption).
Qed.

Lemma statusText_digits status : Forall (fun c => isDigit c = true) (statusText status).
Proof.
  unfold statusText, NilZero.string_of_uint.
  destruct (N.to_uint status) eqn:E; try (rewrite <- E; apply digits_of_uint).
  repeat constructor.
Qed.

Lemma status_message_is_not_a_network_error status :
  includes (units "Submission failed. Server responded with status: "
            ++ statusText status) (units "Failed to fetch") = false.
Proof.
  destruct (includes _ _) eqn:E; [|reflexivity]. exfalso.
  apply includes_needs_head in E. apply in_app_or in E. destruct E as [E | E].
  - vm_compute in E. repeat (destruct E as [E | E]; [discriminate E|]). exact E.
  - pose proof (statusText_digits status) as Hd.
    rewrite Forall_forall in Hd. specialize (Hd _ E). discriminate Hd.
Qed.

(** X18. Submitting a form that does not validate ends with the errors
    of [validateForm] and a cleared submit error, whatever the request
    would have answered: the form is not marked submitted and the
    submitting flag is not touched. *)
Theorem invalid_form_is_not_submitted (st : State) (outcome : FetchOutcome) :
  fst (validateForm st) = false ->
  handleSubmit outcome st = setSubmitError "" (snd (validateForm st))
  /\ isSubmitted (handleSubmit outcome st) = isSubmitted st
  /\ isSubmitting (handleSubmit outcome st) = isSubmitting st.
Proof.
  intros Hbad. unfold handleSubmit.
  rewrite validateForm_ignores_submitError, Hbad. cbn [negb].
  split; [reflexivity|].
  destruct (validateForm_frame st) as (_ & Hs & Hg & _).
  split; [exact Hs|exact Hg].
Qed.

(** X19. Submitting a valid form always ends with the submitting flag
    false and no field error.  The form is marked submitted only when the
    response is ok; a response with an error status gives the general
    failure message, never the network one; something thrown gives one of
    the two messages. *)
Theorem valid_form_outcomes (st : State) (outcome : FetchOutcome) :
  fst (validateForm st) = true ->
  isSubmitting (handleSubmit outcome st) = false
  /\ errors (handleSubmit outcome st)
     = {| Errors.name := ""; Errors.email := ""; Errors.phone := "" |}
  /\ match outcome with
     | Responded true _ =>
         isSubmitted (handleSubmit outcome st) = true
         /\ submitError (handleSubmit outcome st) = ""%string
     | Responded false _ =>
         isSubmitted (handleSubmit outcome st) = isSubmitted st
         /\ submitError (handleSubmit outcome st)
            = "Failed to submit your request. Please try again later."%string
     | FetchThrew message =>
         isSubmitted (handleSubmit outcome st) = isSubmitted st
         /\ (submitError (handleSubmit outcome st)
             = "A network error occurred. Please check your connection and try again."%string
             \/ submitError (handleSubmit outcome st)
                = "Failed to submit your request. Please try again later."%string)
     end.
Proof.
  intros Hok. unfold handleSubmit.
  rewrite validateForm_ignores_submitError, Hok. cbn [negb].
  assert (He : errors (snd (validateForm st))
               = {| Errors.name := ""; Errors.email := ""; Errors.phone := "" |}).
  { revert Hok. unfold validateForm.
    destruct (isBlank (name (formData st)));
      destruct (isBlank (email (formData st)));
      destruct (testAnywhere emailPattern (email (formData st)));
      destruct (isBlank (phone (formData st)));
      destruct (testWhole phonePattern (filter isDigit (phone (formData st))));
      simpl; intros H; (discriminate H || reflexivity). }
  destruct (validateForm_frame st) as (_ & Hs & _ & _).
  destruct outcome as [[ | ] status | [message | ]].
  - cbn. repeat split; assumption.
  - cbn [negb]. unfold submitFailed.
    rewrite status_message_is_not_a_network_error. cbn. repeat split; assumption.
  - unfold submitFailed.
    destruct (includes message _); cbn; repeat split; try assumption; tauto.
  - cbn. repeat split; try assumption. right. reflexivity.
Qed.

End SubmitProperties.

(** ** The further properties at concrete inputs *)

Section MoreConcretely.
Local Notation "'js0'" := (js_number pow_by_squaring).

(** Text that is no number typed into the income field: the income
    becomes 0 and the auto debt stays 500. *)
Lemma input_is_sanitised_witness :
  numericField "monthlyIncome"
    (data (handleInputChange parsesNothing "monthlyIncome" "abc" initialState))
  = Some 0%float
  /\ numericField "autoDebt"
       (data (handleInputChange parsesNothing "monthlyIncome" "abc" initialState))
     = Some 500%float.
Proof.
  destruct (input_is_sanitised parsesNothing "monthlyIncome" "abc" initialState)
    as (Hsame & _ & Hother & _).
  - unfold numericFields. simpl. tauto.
  - split; [rewrite Hsame; reflexivity|].
    rewrite Hother; [reflexivity|discriminate].
Defined.

Lemma no_nan_in_reachable_data_witness :
  reachable parsesNothing (parsesTo steadyDetails) pow_by_squaring cannedAnalysis
    (handleInputChange parsesNothing "monthlyIncome" "abc" initialState)
  /\ is_nan 0%float = false.
Proof.
  assert (Hreach :
    reachable parsesNothing (parsesTo steadyDetails) pow_by_squaring cannedAnalysis
      (handleInputChange parsesNothing "monthlyIncome" "abc" initialState))
    by (apply reach_input; apply reach_initial).
  split; [exact Hreach|].
  apply (no_nan_in_reachable_data parsesNothing (parsesTo steadyDetails)
           pow_by_squaring cannedAnalysis _ "monthlyIncome" 0%float Hreach).
  reflexivity.
Defined.

Lemma results_need_positive_inputs_witness :
  exists r, fst (calculateFinancials (N := js0) initialState) = Some r
    /\ (0 <? currentHomeValue (data initialState))%float = true
    /\ (0 <? monthlyIncome (data initialState))%float = true.
Proof.
  assert (Hv : passesValidation (N := js0) (data initialState) = true)
    by (vm_compute; reflexivity).
  pose proof (calculateFinancials_valid (N := js0) initialState Hv) as E.
  eexists. split; [rewrite E; reflexivity|].
  destruct (results_need_positive_inputs parsesNothing (parsesTo steadyDetails)
              pow_by_squaring cannedAnalysis initialState _
              (reach_initial _ _ _ _)
              (f_equal fst E))
    as (Hvalue & _ & _ & Hincome).
  split; assumption.
Defined.

(** A reply with a currency sign, a separator and cents: the digits are
    read as one number. *)
Lemma estimate_reads_only_digits_witness :
  getEstimatedHomeValue "1 Main St" (ResponseText (units "About $550,000.00"))
  = Fulfilled 55000000%float.
Proof.
  rewrite (estimate_reads_only_digits "1 Main St" (units "About $550,000.00"));
    [|reflexivity].
  vm_compute. reflexivity.
Defined.

Lemma estimate_is_positive_witness :
  is_nan 550000%float = false /\ (0 <? 550000)%float = true
  /\ (550000 <=? 0)%float = false.
Proof.
  apply (estimate_is_positive "1 Main St" (ResponseText (units "550000"))).
  vm_compute. reflexivity.
Defined.

Lemma failed_estimate_keeps_data_witness :
  handleGetValue RequestFailed addressedState
  = setIsValueLoading false
      (setError
         "Could not estimate a value for this address. Please enter a value manually."
         addressedState)
  /\ handleGetValue (ResponseText (units "550000")) initialState = initialState.
Proof.
  destruct (failed_estimate_keeps_data RequestFailed addressedState) as [_ Hfail].
  destruct (failed_estimate_keeps_data (ResponseText (units "550000")) initialState)
    as [Hempty _].
  split.
  - eapply Hfail; reflexivity.
  - apply Hempty. reflexivity.
Defined.

Lemma estimate_passes_first_rule_witness :
  currentHomeValue (data (handleGetValue (ResponseText (units "550000")) addressedState))
  = 550000%float
  /\ homeValueInvalid (N := js0)
       (data (handleGetValue (ResponseText (units "550000")) addressedState)) = false.
Proof.
  destruct (estimate_passes_first_rule pow_by_squaring (ResponseText (units "550000"))
              addressedState 550000%float) as (Hvalue & Hrule & _).
  - reflexivity.
  - vm_compute. reflexivity.
  - split; assumption.
Defined.

Lemma failed_details_keep_data_witness :
  handleGetNewHomeDetails (fun _ => None) (ResponseText (units "not json"))
    addressedState
  = setIsHomeDetailsLoading false
      (setError
         "Could not retrieve details for the new address. Please check the address and try again."
         addressedState).
Proof.
  destruct (failed_details_keep_data (fun _ => None)
              (ResponseText (units "not json")) addressedState) as [_ Hfail].
  eapply Hfail; reflexivity.
Defined.



Lemma blank_markdown_renders_nothing_witness :
  simpleMarkdownToHtml [32; 10; 9; 32]%N = [].
Proof.
  apply blank_markdown_renders_nothing. repeat constructor.
Defined.

Lemma replaceBold_plain_witness :
  replaceBold (units "2 * 3 = 6") = units "2 * 3 = 6".
Proof.
  apply replaceBold_plain. vm_compute. reflexivity.
Defined.

Lemma invalid_form_is_not_submitted_witness :
  ConsultantForm.isSubmitted
    (ConsultantForm.handleSubmit (ConsultantForm.Responded true 200) emptyForm) = false
  /\ ConsultantForm.Errors.name
       (ConsultantForm.errors
          (ConsultantForm.handleSubmit (ConsultantForm.Responded true 200) emptyForm))
     = "Name is required."%string.
Proof.
  destruct (invalid_form_is_not_submitted emptyForm (ConsultantForm.Responded true 200))
    as (Hstate & Hsub & _).
  - vm_compute. reflexivity.
  - split; [rewrite Hsub; reflexivity|]. rewrite Hstate. vm_compute. reflexivity.
Defined.

Lemma valid_form_outcomes_witness :
  ConsultantForm.isSubmitted
    (ConsultantForm.handleSubmit (ConsultantForm.Responded true 200) filledForm) = true
  /\ ConsultantForm.submitError
       (ConsultantForm.handleSubmit (ConsultantForm.Responded false 500) filledForm)
     = "Failed to submit your request. Please try again later."%string.
Proof.
  destruct (valid_form_outcomes filledForm (ConsultantForm.Responded true 200))
    as (_ & _ & Hok & _); [vm_compute; reflexivity|].
  destruct (valid_form_outcomes filledForm (ConsultantForm.Responded false 500))
    as (_ & _ & _ & Hbad); [vm_compute; reflexivity|].
  split; assumption.
Defined.

End MoreConcretely.
